(** * AI marketing agent: the campaign agent, its schemas and the HTTP handlers

    A shallow embedding of [schemas.py], [claude_agent.py] and [main_app.py],
    followed by the properties of the brief -> response pipeline and of the
    context store.

    Conventions.
    - A Python [str] is a [string]; literals with characters outside ASCII
      stand as their UTF-8 bytes, and a surrogate (a code point that UTF-8
      refuses to encode) as the three bytes its code would take.
    - A Python [int] is a [Z].
    - Code that can raise returns [exn + A]; code that also reads the clock,
      touches the file system or mutates the store runs in the monad [M].
      An exception is kept as its type and the arguments it was raised
      with.
    - Calls of [logger] write to the process log only and are left out. *)

From Stdlib Require Import String Ascii List ZArith Lia Bool Arith.
Import ListNotations.

Local Open Scope string_scope.
Local Open Scope Z_scope.

(* ================================================================= *)
(** * Strings *)

Module Str.

(** The character [\n]. *)
Definition nl : string := String (ascii_of_nat 10) EmptyString.

(** The double quote. *)
Definition dq : string := String (ascii_of_nat 34) EmptyString.

(** [", ".join(l)] *)
Fixpoint join (sep : string) (l : list string) : string :=
  match l with
  | [] => EmptyString
  | [x] => x
  | x :: rest => x ++ sep ++ join sep rest
  end.

(** [s.startswith(p)] *)
Fixpoint starts_with (p s : string) : bool :=
  match p, s with
  | EmptyString, _ => true
  | String _ _, EmptyString => false
  | String a p', String b s' => Ascii.eqb a b && starts_with p' s'
  end.

(** [needle in hay] for two [str]: [needle] occurs as a substring. *)
Fixpoint contains (needle hay : string) : bool :=
  starts_with needle hay ||
  match hay with
  | EmptyString => false
  | String _ rest => contains needle rest
  end.

(** The same fact as a proposition. *)
Definition occurs_in (needle hay : string) : Prop :=
  exists pre post, hay = pre ++ needle ++ post.

Definition digit (n : Z) : ascii := ascii_of_nat (48 + Z.to_nat (n mod 10)).

(** The last [width] decimal digits of [n], as ["%0<width>d"] prints a
    number that has at most [width] digits. *)
Fixpoint zfill (width : nat) (n : Z) : string :=
  match width with
  | O => EmptyString
  | S w => zfill w (n / 10) ++ String (digit n) EmptyString
  end.

Definition non_empty (s : string) : bool :=
  match s with EmptyString => false | String _ _ => true end.

(** The first byte of the three that stand for a surrogate, and whether a
    text starts with a byte that follows it in one. *)
Definition surrogate_lead (a : ascii) : bool := (nat_of_ascii a =? 237)%nat.

Definition surrogate_trail (s : string) : bool :=
  match s with
  | EmptyString => false
  | String b _ => ((160 <=? nat_of_ascii b) && (nat_of_ascii b <=? 191))%nat
  end.

(** Whether [s.encode('utf-8')] accepts [s]: it refuses a [str] that holds
    a surrogate (pydantic and [json.loads] let one through), here the
    bytes [ED A0..BF xx]. *)
Fixpoint encodable (s : string) : bool :=
  match s with
  | EmptyString => true
  | String a rest => negb (surrogate_lead a && surrogate_trail rest) && encodable rest
  end.

End Str.

(* ================================================================= *)
(** * Python values, dictionaries and exceptions *)

(** A naive [datetime.datetime]. *)
Record datetime : Type := mk_datetime {
  year : Z;
  month : Z;
  day : Z;
  hour : Z;
  minute : Z;
  second : Z;
  microsecond : Z
}.

(** The values [json.loads] and [BaseModel.dict()] produce.  A float is kept
    as the text of its literal: nothing here computes with it. *)
#[warnings="-register-all"]
Inductive pyval : Type :=
| PNone
| PBool (b : bool)
| PInt (z : Z)
| PFloat (literal : string)
| PStr (s : string)
| PDatetime (t : datetime)
| PList (l : list pyval)
| PDict (d : list (string * pyval)).

(** A [dict] keeps its keys in insertion order; assigning to a key that is
    present replaces the value where it stands, a new key goes to the end. *)
Section Dict.
Context {K V : Type}.
Variable eqb : K -> K -> bool.

Definition dict : Type := list (K * V).

(** [d.get(k)] *)
Fixpoint dict_get (d : dict) (k : K) : option V :=
  match d with
  | [] => None
  | (k', v) :: rest => if eqb k' k then Some v else dict_get rest k
  end.

(** [k in d] *)
Definition dict_mem (d : dict) (k : K) : bool :=
  match dict_get d k with Some _ => true | None => false end.

(** [d.get(k, default)] *)
Definition dict_get_default (d : dict) (k : K) (default : V) : V :=
  match dict_get d k with Some v => v | None => default end.

(** [d[k] = v] *)
Fixpoint dict_set (d : dict) (k : K) (v : V) : dict :=
  match d with
  | [] => [(k, v)]
  | (k', v') :: rest =>
      if eqb k' k then (k', v) :: rest else (k', v') :: dict_set rest k v
  end.

(** [list(d.values())] *)
Definition dict_values (d : dict) : list V := map snd d.

Definition dict_keys (d : dict) : list K := map fst d.

End Dict.

Arguments dict : clear implicits.

(** Exceptions, all of them subclasses of [Exception]. *)
Inductive exn : Type :=
| ValueError (msg : string)
| TypeError (msg : string)
| KeyError (key : string)
| AttributeError (msg : string)
| JSONDecodeError (msg : string)
| OSError (msg : string)
| RecursionError (msg : string)
| UnicodeEncodeError (object : string)
| ValidationError (model : string) (fields : list string)
| ProviderError (msg : string)
| HTTPException (status_code : Z) (detail : string).

(** What the program takes from the interpreter and its libraries. *)
Class Runtime : Type := {
  (** [str.strip()] *)
  str_strip : string -> string;
  (** [json.loads]: the value, or the exception the decoder raises.  For
      a text that is not JSON this is a [json.JSONDecodeError]; the decoder
      has limits of its own as well, and raises a [RecursionError] for
      brackets nested too deep and a plain [ValueError] for an integer of
      more digits than [int] converts. *)
  json_loads : string -> exn + pyval;
  (** pydantic's validation of a value for a field of type [str] *)
  pydantic_str : pyval -> option string;
  pydantic_str_of_str : forall s, pydantic_str (PStr s) = Some s;
  (** [str(e)] of a pydantic [ValidationError] *)
  validation_text : string -> list string -> string;
  (** [str(e)] of the [UnicodeEncodeError] for a text that UTF-8 refuses *)
  encode_error_text : string -> string;
  (** [==] between two hashable values, as a [dict] compares its keys *)
  key_eqb : pyval -> pyval -> bool;
  key_eqb_str : forall a b, key_eqb (PStr a) (PStr b) = String.eqb a b
}.

(** [str(e)]; for a [KeyError] the [repr] of a key that needs no escape. *)
Definition str_of_exn `{Runtime} (e : exn) : string :=
  match e with
  | ValueError msg => msg
  | TypeError msg => msg
  | KeyError key => "'" ++ key ++ "'"
  | AttributeError msg => msg
  | JSONDecodeError msg => msg
  | OSError msg => msg
  | RecursionError msg => msg
  | UnicodeEncodeError object => encode_error_text object
  | ValidationError model fields => validation_text model fields
  | ProviderError msg => msg
  | HTTPException _ detail => detail
  end.

(** The name of the type of [v], as the interpreter's messages print it. *)
Definition type_name (v : pyval) : string :=
  match v with
  | PNone => "NoneType"
  | PBool _ => "bool"
  | PInt _ => "int"
  | PFloat _ => "float"
  | PStr _ => "str"
  | PDatetime _ => "datetime.datetime"
  | PList _ => "list"
  | PDict _ => "dict"
  end.

(** [field in v] for a [str] on the left: key of a dict, element of a
    list, substring of a string; the other types are not containers. *)
Definition py_in (field : string) (v : pyval) : exn + bool :=
  match v with
  | PDict d => inr (dict_mem String.eqb d field)
  | PList l =>
      inr (existsb (fun x => match x with
                             | PStr s => String.eqb s field
                             | _ => false
                             end) l)
  | PStr s => inr (Str.contains field s)
  | _ => inl (TypeError ("argument of type '" ++ type_name v ++ "' is not iterable"))
  end.

(** [v[key]] for a [str] key. *)
Definition py_getitem (v : pyval) (key : string) : exn + pyval :=
  match v with
  | PDict d =>
      match dict_get String.eqb d key with
      | Some x => inr x
      | None => inl (KeyError key)
      end
  | PList _ => inl (TypeError "list indices must be integers or slices, not str")
  | PStr _ => inl (TypeError "string indices must be integers, not 'str'")
  | _ => inl (TypeError ("'" ++ type_name v ++ "' object is not subscriptable"))
  end.

(** Whether a value can be the key of a [dict]. *)
Definition hashable (v : pyval) : bool :=
  match v with
  | PList _ | PDict _ => false
  | _ => true
  end.

(* ================================================================= *)
(** * Effects: a state that survives an exception *)

(** A computation over a state [S] that returns an [A] or raises; the state
    changes made before an exception stay, as in Python. *)
Definition M (S A : Type) : Type := S -> (exn + A) * S.

Definition ret {S A} (a : A) : M S A := fun s => (inr a, s).

Definition raise {S A} (e : exn) : M S A := fun s => (inl e, s).

Definition bind {S A B} (m : M S A) (k : A -> M S B) : M S B :=
  fun s =>
    match m s with
    | (inr a, s') => k a s'
    | (inl e, s') => (inl e, s')
    end.

(** [try: body except Exception as e: handler(e)] *)
Definition try_except {S A} (body : M S A) (handler : exn -> M S A) : M S A :=
  fun s =>
    match body s with
    | (inr a, s') => (inr a, s')
    | (inl e, s') => handler e s'
    end.

(** A step that cannot touch the state. *)
Definition lift {S A} (r : exn + A) : M S A := fun s => (r, s).

Declare Scope py_scope.
Delimit Scope py_scope with py.
Notation "x <- m ;; k" := (bind m (fun x => k))
  (at level 100, m at next level, right associativity) : py_scope.
Notation "m ;;; k" := (bind m (fun _ => k))
  (at level 100, right associativity) : py_scope.

(* ================================================================= *)
(** * [datetime] *)

Module Datetime.

Definition is_leap (y : Z) : bool :=
  (y mod 4 =? 0) && (negb (y mod 100 =? 0) || (y mod 400 =? 0)).

Definition days_in_month (y m : Z) : Z :=
  if m =? 2 then (if is_leap y then 29 else 28)
  else if (m =? 4) || (m =? 6) || (m =? 9) || (m =? 11) then 30
  else 31.

(** A date and time that [datetime] can hold. *)
Definition valid (t : datetime) : Prop :=
  1 <= year t <= 9999 /\ 1 <= month t <= 12 /\
  1 <= day t <= days_in_month (year t) (month t) /\
  0 <= hour t < 24 /\ 0 <= minute t < 60 /\ 0 <= second t < 60 /\
  0 <= microsecond t < 1000000.

Definition with_day (t : datetime) (d : Z) : datetime :=
  mk_datetime (year t) (month t) d (hour t) (minute t) (second t) (microsecond t).

(** [t.replace(day=d)]: the constructor checks the new day against the
    month of [t]. *)
Definition replace_day (t : datetime) (d : Z) : exn + datetime :=
  if (1 <=? d) && (d <=? days_in_month (year t) (month t))
  then inr (with_day t d)
  else inl (ValueError "day is out of range for month").

(** [t.isoformat()] *)
Definition isoformat (t : datetime) : string :=
  Str.zfill 4 (year t) ++ "-" ++ Str.zfill 2 (month t) ++ "-" ++ Str.zfill 2 (day t)
  ++ "T" ++ Str.zfill 2 (hour t) ++ ":" ++ Str.zfill 2 (minute t) ++ ":"
  ++ Str.zfill 2 (second t)
  ++ (if microsecond t =? 0 then EmptyString else "." ++ Str.zfill 6 (microsecond t)).

(** [t.strftime('%Y%m%d_%H%M%S')] *)
Definition strftime_Ymd_HMS (t : datetime) : string :=
  Str.zfill 4 (year t) ++ Str.zfill 2 (month t) ++ Str.zfill 2 (day t) ++ "_"
  ++ Str.zfill 2 (hour t) ++ Str.zfill 2 (minute t) ++ Str.zfill 2 (second t).

(** [t.strftime('%Y%m')] *)
Definition strftime_Ym (t : datetime) : string :=
  Str.zfill 4 (year t) ++ Str.zfill 2 (month t).

(** The day after [t], at the same time of day. *)
Definition next_day (t : datetime) : datetime :=
  if day t <? days_in_month (year t) (month t) then with_day t (day t + 1)
  else if month t <? 12 then
    mk_datetime (year t) (month t + 1) 1 (hour t) (minute t) (second t) (microsecond t)
  else
    mk_datetime (year t + 1) 1 1 (hour t) (minute t) (second t) (microsecond t).

(** Calendar addition of [n] days, what [t + timedelta(days=n)] computes
    (the reference the deadline is compared with). *)
Fixpoint calendar_add_days (n : nat) (t : datetime) : datetime :=
  match n with
  | O => t
  | S n' => calendar_add_days n' (next_day t)
  end.

End Datetime.

(* ================================================================= *)
(** * The world outside the process *)

(** The clock as the sequence of readings [datetime.now()] returns, and the
    files of the working directory, which either refuses to open a file
    for writing ([read_only]) or takes every write. *)
Record World : Type := mk_World {
  clock : nat -> datetime;
  ticks : nat;
  files : dict string string;
  read_only : bool
}.

(** The world after one more reading of the clock. *)
Definition tick (w : World) : World :=
  mk_World (clock w) (S (ticks w)) (files w) (read_only w).

(** [datetime.now()] *)
Definition now : M World datetime :=
  fun w => (inr (clock w (ticks w)), tick w).

(** [with open(name, "r") as f: f.read()] *)
Definition read_file (name : string) : M World string :=
  fun w =>
    match dict_get String.eqb (files w) name with
    | Some text => (inr text, w)
    | None => (inl (OSError ("[Errno 2] No such file or directory: '" ++ name ++ "'")), w)
    end.

(** [open(name, "a", encoding="utf-8")]: a file that is missing is created
    empty; a file system that takes no writes refuses. *)
Definition open_append (name : string) : M World unit :=
  fun w =>
    if read_only w
    then (inl (OSError ("[Errno 30] Read-only file system: '" ++ name ++ "'")), w)
    else (inr tt,
          mk_World (clock w) (ticks w)
            (dict_set String.eqb (files w) name
               (dict_get_default String.eqb (files w) name EmptyString))
            (read_only w)).

(** [f.write(text)] on the file opened so: the text is encoded as a whole,
    which raises when UTF-8 refuses it, and goes to the end of the file.
    What was written before an exception stays: the [with] block closes
    the file on its way out.  A file system that let the file be opened
    takes what is written to it, and line ends are taken as they are, as
    on a system whose line separator is [\n]. *)
Definition f_write (name text : string) : M World unit :=
  fun w =>
    if Str.encodable text
    then (inr tt,
          mk_World (clock w) (ticks w)
            (dict_set String.eqb (files w) name
               (dict_get_default String.eqb (files w) name EmptyString ++ text))
            (read_only w))
    else (inl (UnicodeEncodeError text), w).

(* ================================================================= *)
(** * schemas.py *)

Module Schemas.

(** [CampaignBrief], as validation leaves it. *)
Record CampaignBrief : Type := mk_CampaignBrief {
  campaign_id : string;
  company_name : string;
  brand_name : string;
  campaign_type : string;
  objective : string;
  target_audience : string;
  key_message : string;
  brand_voice : string;
  brand_values : string;
  budget : string;
  platforms : option (list string);
  deadline : string;
  created_date : string;
  additional_notes : option string;
  airtable_record_id : option string;
  assigned_to : option string;
  priority : option string
}.

Record EmailCopy : Type := mk_EmailCopy {
  subject_line : string;
  body_text : string
}.

(** [AgentResponse]; [confidence_score] is an optional float, kept as the
    text of its literal. *)
Record AgentResponse : Type := mk_AgentResponse {
  r_campaign_id : string;
  r_context_id : option string;
  strategy_summary : string;
  post_text : string;
  email_copy : EmailCopy;
  image_prompt : string;
  agent_notes : string;
  generated_at : datetime;
  confidence_score : option string
}.

Record MemoryContext : Type := mk_MemoryContext {
  context_id : string;
  agent_role : string;
  input_data : dict string pyval;
  conversation_history : list (dict string pyval);
  output_memory : dict string pyval;
  reasoning_log : list string;
  status : string;
  created_at : datetime;
  updated_at : datetime;
  m_assigned_to : option string;
  reviewed_by : option string;
  approval_notes : option string
}.

(** [CampaignBrief.validate_campaign_type]: both branches return the value. *)
Definition allowed_types : list string :=
  ["product_launch"; "brand_awareness"; "lead_generation";
   "conversion"; "retention"; "event_promotion"; "content_marketing"].

Definition validate_campaign_type (v : string) : exn + string :=
  if negb (existsb (String.eqb v) allowed_types)
  then inr v
  else inr v.

(** [MemoryContext.validate_status] *)
Definition allowed_statuses : list string :=
  ["draft"; "in_review"; "approved"; "published"; "archived"].

Definition validate_status (v : string) : exn + string :=
  if existsb (String.eqb v) allowed_statuses
  then inr v
  else inl (ValueError
    "Status must be one of: ['draft', 'in_review', 'approved', 'published', 'archived']").

Section Pydantic.
Context `{Runtime}.

(** The validation of [email_copy: EmailCopy]: a dict is unpacked into
    the keyword arguments of [EmailCopy], which wants both fields and
    ignores the rest. *)
Definition validate_EmailCopy (v : pyval) : option EmailCopy :=
  match v with
  | PDict d =>
      match dict_get String.eqb d "subject_line", dict_get String.eqb d "body_text" with
      | Some s, Some b =>
          match pydantic_str s, pydantic_str b with
          | Some s', Some b' => Some (mk_EmailCopy s' b')
          | _, _ => None
          end
      | _, _ => None
      end
  | _ => None
  end.

Definition failed {A} (name : string) (o : option A) : list string :=
  match o with Some _ => [] | None => [name] end.

(** [AgentResponse(campaign_id=..., strategy_summary=..., post_text=...,
    email_copy=..., image_prompt=..., agent_notes=..., generated_at=...)]:
    every field is validated, and the fields that fail are reported in
    one [ValidationError].  [context_id] and [confidence_score] take
    their default, [None]. *)
Definition AgentResponse_init (campaign_id : string)
    (strategy_summary post_text email_copy image_prompt agent_notes : pyval)
    (generated_at : datetime) : exn + AgentResponse :=
  let ss := pydantic_str strategy_summary in
  let pt := pydantic_str post_text in
  let ec := validate_EmailCopy email_copy in
  let ip := pydantic_str image_prompt in
  let an := pydantic_str agent_notes in
  match ss, pt, ec, ip, an with
  | Some ss', Some pt', Some ec', Some ip', Some an' =>
      inr (mk_AgentResponse campaign_id None ss' pt' ec' ip' an' generated_at None)
  | _, _, _, _, _ =>
      inl (ValidationError "AgentResponse"
             (failed "strategy_summary" ss ++ failed "post_text" pt
              ++ failed "email_copy" ec ++ failed "image_prompt" ip
              ++ failed "agent_notes" an))
  end.

End Pydantic.

(** The five generated fields are there and none is empty. *)
Definition structurally_valid (r : AgentResponse) : bool :=
  Str.non_empty (strategy_summary r) && Str.non_empty (post_text r)
  && Str.non_empty (subject_line (email_copy r))
  && Str.non_empty (body_text (email_copy r))
  && Str.non_empty (image_prompt r) && Str.non_empty (agent_notes r).

Definition opt_str (o : option string) : pyval :=
  match o with Some s => PStr s | None => PNone end.

(** [brief.dict()] *)
Definition CampaignBrief_dict (b : CampaignBrief) : dict string pyval :=
  [ ("campaign_id", PStr (campaign_id b));
    ("company_name", PStr (company_name b));
    ("brand_name", PStr (brand_name b));
    ("campaign_type", PStr (campaign_type b));
    ("objective", PStr (objective b));
    ("target_audience", PStr (target_audience b));
    ("key_message", PStr (key_message b));
    ("brand_voice", PStr (brand_voice b));
    ("brand_values", PStr (brand_values b));
    ("budget", PStr (budget b));
    ("platforms", match platforms b with
                  | Some l => PList (map PStr l)
                  | None => PNone
                  end);
    ("deadline", PStr (deadline b));
    ("created_date", PStr (created_date b));
    ("additional_notes", opt_str (additional_notes b));
    ("airtable_record_id", opt_str (airtable_record_id b));
    ("assigned_to", opt_str (assigned_to b));
    ("priority", opt_str (priority b)) ].

(** ** [AgentMemoryStore] *)

Record AgentMemoryStore : Type := mk_AgentMemoryStore {
  contexts : dict string MemoryContext
}.

(** [AgentMemoryStore()] *)
Definition AgentMemoryStore_init : AgentMemoryStore := mk_AgentMemoryStore [].

(** [store_context]: the assignment cannot raise, so the answer is [True]. *)
Definition store_context (cid : string) (context : MemoryContext)
  : M AgentMemoryStore bool :=
  fun self =>
    (inr true, mk_AgentMemoryStore (dict_set String.eqb (contexts self) cid context)).

(** [get_context] *)
Definition get_context (cid : string) : M AgentMemoryStore (option MemoryContext) :=
  fun self => (inr (dict_get String.eqb (contexts self) cid), self).

Definition with_status (c : MemoryContext) (s : string) : MemoryContext :=
  mk_MemoryContext (context_id c) (agent_role c) (input_data c)
    (conversation_history c) (output_memory c) (reasoning_log c) s
    (created_at c) (updated_at c) (m_assigned_to c) (reviewed_by c)
    (approval_notes c).

(** Modelled from the spec: [AgentMemoryStore.list_contexts], whose body
    (and the default of [limit]) is cut off in [schemas.py].  The spec:
    "list(limit) -> ordered sequence of contexts ..., truncated to limit";
    the order taken here is the dict's, the order of insertion.  A limit
    below zero keeps nothing. *)
Definition list_contexts (limit : Z) : M AgentMemoryStore (list MemoryContext) :=
  fun self => (inr (firstn (Z.to_nat limit) (dict_values (contexts self))), self).

(** Modelled from the spec: [AgentMemoryStore.update_status], which is cut
    off in [schemas.py].  The spec: "update_status(id, newStatus) -> bool:
    fails (returns false) if id absent; otherwise overwrites status field
    only." *)
Definition update_status (cid new_status : string) : M AgentMemoryStore bool :=
  fun self =>
    match dict_get String.eqb (contexts self) cid with
    | None => (inr false, self)
    | Some c =>
        (inr true,
         mk_AgentMemoryStore
           (dict_set String.eqb (contexts self) cid (with_status c new_status)))
    end.

End Schemas.

(* ================================================================= *)
(** * claude_agent.py *)

Module ClaudeAgent.
Import Schemas.

(** One call of [client.messages.create]. *)
Record Request : Type := mk_Request {
  req_model : string;
  req_max_tokens : Z;
  req_temperature : string;
  req_system : string;
  req_messages : list (string * string)
}.

(** The provider's client: [messages_create] is the round trip followed by
    [response.content[0].text]; it returns the text or raises an
    [Exception]. *)
Record Anthropic : Type := mk_Anthropic {
  messages_create : Request -> exn + string
}.

(** [CampaignAgent]: [client] is [None] when no API key is configured. *)
Record CampaignAgent : Type := mk_CampaignAgent {
  client : option Anthropic;
  a_agent_role : string;
  model : string;
  max_tokens : Z;
  system_prompt : string
}.

Definition lines (l : list string) : string := Str.join Str.nl l.

(** [_build_system_prompt]: the fixed instruction sent with every call. *)
Definition _build_system_prompt : string :=
  lines
    [ "You are an expert Campaign Manager AI agent. Your role is to analyze campaign briefs and generate comprehensive marketing assets.";
      EmptyString;
      "When given a campaign brief, you must:";
      EmptyString;
      "1. **Analyze the brief thoroughly** - understand the target audience, goals, brand voice, and constraints";
      "2. **Generate a strategic summary** - key insights and approach";
      "3. **Create a social media post** - engaging, platform-appropriate content";
      "4. **Write email copy** - compelling subject line and body text";
      "5. **Generate an image prompt** - detailed prompt for visual asset creation";
      "6. **Provide agent notes** - your reasoning and recommendations";
      EmptyString;
      "**Output Format Requirements:**";
      "Always respond with a valid JSON object containing these exact fields:";
      "- strategy_summary: String with 2-3 paragraphs of strategic insights";
      "- post_text: String with social media post (include relevant hashtags)";
      "- email_copy: Object with " ++ Str.dq ++ "subject_line" ++ Str.dq ++ " and " ++ Str.dq ++ "body_text" ++ Str.dq ++ " fields";
      "- image_prompt: String with detailed visual description for image generation";
      "- agent_notes: String with your reasoning, recommendations, and next steps";
      EmptyString;
      "**Guidelines:**";
      "- Match the brand voice and tone specified in the brief";
      "- Consider the target audience demographics and preferences  ";
      "- Ensure all content aligns with campaign objectives";
      "- Be specific and actionable in your recommendations";
      "- Keep social posts under 280 characters unless specified otherwise";
      "- Make email copy compelling and conversion-focused";
      "- Create detailed image prompts that capture brand aesthetics";
      EmptyString;
      "**Response must be valid JSON only - no additional text or formatting.**" ].

(** [CampaignAgent()]: [api_key] is what [os.getenv("ANTHROPIC_API_KEY")]
    returns and [connect] is the constructor [Anthropic(api_key=...)]; a
    key that is absent or empty leaves the agent without a client. *)
Definition CampaignAgent_init (api_key : option string) (connect : string -> Anthropic)
  : CampaignAgent :=
  mk_CampaignAgent
    match api_key with
    | Some (String c rest) => Some (connect (String c rest))
    | _ => None
    end
    "Campaign Manager" "claude-3-sonnet-20241022" 2000 _build_system_prompt.

Record AgentInfo : Type := mk_AgentInfo {
  i_agent_role : string;
  i_model : string;
  i_max_tokens : Z;
  api_available : bool;
  capabilities : list string
}.

(** [get_agent_info] *)
Definition get_agent_info (self : CampaignAgent) : AgentInfo :=
  mk_AgentInfo (a_agent_role self) (model self) (max_tokens self)
    match client self with Some _ => true | None => false end
    [ "Campaign Strategy Generation";
      "Social Media Content Creation";
      "Email Copy Writing";
      "Image Prompt Generation";
      "Brand Voice Adaptation" ].

Section Agent.
Context `{Runtime}.

(** [_build_user_message] *)
Definition _build_user_message (brief : CampaignBrief) : string :=
  let brief_text := lines
    [ EmptyString;
      "CAMPAIGN BRIEF ANALYSIS REQUEST";
      EmptyString;
      "Campaign ID: " ++ campaign_id brief;
      "Company: " ++ company_name brief;
      "Brand: " ++ brand_name brief;
      "Campaign Type: " ++ campaign_type brief;
      EmptyString;
      "CAMPAIGN DETAILS:";
      "Objective: " ++ objective brief;
      "Target Audience: " ++ target_audience brief;
      "Key Message: " ++ key_message brief;
      EmptyString;
      "BRAND GUIDELINES:";
      "Brand Voice: " ++ brand_voice brief;
      "Brand Values: " ++ brand_values brief;
      EmptyString;
      "DELIVERABLES NEEDED:";
      "- Strategy Summary";
      "- Social Media Post";
      "- Email Campaign Copy";
      "- Image Generation Prompt";
      EmptyString;
      "CONSTRAINTS:";
      "Budget: " ++ budget brief;
      "Timeline: Campaign created " ++ created_date brief
        ++ ", deadline " ++ deadline brief;
      "Platform Focus: " ++
        match platforms brief with
        | Some (p :: ps) => Str.join ", " (p :: ps)
        | _ => "Multi-platform"
        end;
      EmptyString;
      "ADDITIONAL CONTEXT:";
      match additional_notes brief with
      | Some (String c rest) => String c rest
      | _ => "No additional notes provided"
      end;
      EmptyString;
      "Please analyze this brief and generate comprehensive marketing assets following the specified JSON format.";
      EmptyString ]
  in
  str_strip brief_text.

(** [_call_claude_api]: the handler logs and raises the same exception
    again. *)
Definition _call_claude_api (self : CampaignAgent) (c : Anthropic)
    (user_message : string) : M World string :=
  lift (messages_create c
          (mk_Request (model self) (max_tokens self) "0.7" (system_prompt self)
             [("user", user_message)])).

Definition required_fields : list string :=
  ["strategy_summary"; "post_text"; "email_copy"; "image_prompt"; "agent_notes"].

(** The loop over [required_fields]: the first field that is not [in]
    the data raises. *)
Fixpoint check_required (response_data : pyval) (fields : list string) : exn + unit :=
  match fields with
  | [] => inr tt
  | field :: rest =>
      match py_in field response_data with
      | inl e => inl e
      | inr false => inl (ValueError ("Missing required field: " ++ field))
      | inr true => check_required response_data rest
      end
  end.

(** [_parse_claude_response]: a [json.JSONDecodeError] becomes a
    [ValueError] with a fixed message; every other exception, of the
    decoder or of the steps after it (none of which raises a
    [JSONDecodeError]), is raised again as it is. *)
Definition _parse_claude_response (claude_response : string) (brief : CampaignBrief)
  : M World AgentResponse :=
  match json_loads (str_strip claude_response) with
  | inl (JSONDecodeError _) => raise (ValueError "Claude response was not valid JSON")
  | inl e => raise e
  | inr response_data =>
      (_ <- lift (check_required response_data required_fields) ;;
       ss <- lift (py_getitem response_data "strategy_summary") ;;
       pt <- lift (py_getitem response_data "post_text") ;;
       ec <- lift (py_getitem response_data "email_copy") ;;
       ip <- lift (py_getitem response_data "image_prompt") ;;
       an <- lift (py_getitem response_data "agent_notes") ;;
       t <- now ;;
       lift (AgentResponse_init (campaign_id brief) ss pt ec ip an t))%py
  end.

(** [_generate_mock_response] *)
Definition _generate_mock_response (brief : CampaignBrief) : M World AgentResponse :=
  (t <- now ;;
   lift (AgentResponse_init (campaign_id brief)
     (PStr ("Mock strategy for " ++ company_name brief ++ "'s " ++ campaign_type brief
            ++ " campaign. This is a placeholder response generated without calling Claude API. The strategy focuses on "
            ++ target_audience brief ++ " with emphasis on " ++ key_message brief ++ "."))
     (PStr ("🚀 Exciting news from " ++ company_name brief ++ "! " ++ key_message brief
            ++ " Perfect for " ++ target_audience brief ++ ". #Innovation #MockPost"))
     (PDict
        [ ("subject_line", PStr ("Don't Miss This: " ++ key_message brief));
          ("body_text",
           PStr ("Dear Valued Customer," ++ Str.nl ++ Str.nl ++ key_message brief
                 ++ Str.nl ++ Str.nl ++ "This mock email copy is generated for "
                 ++ company_name brief ++ "'s " ++ campaign_type brief ++ " campaign."
                 ++ Str.nl ++ Str.nl ++ "Best regards," ++ Str.nl ++ "The "
                 ++ company_name brief ++ " Team")) ])
     (PStr ("Professional marketing image for " ++ company_name brief ++ ", showing "
            ++ key_message brief
            ++ ", style: modern and clean, colors: brand colors, mood: "
            ++ brand_voice brief ++ ", target audience: " ++ target_audience brief))
     (PStr ("MOCK RESPONSE: This is a placeholder response for testing. In production, this would contain Claude's strategic insights about the "
            ++ campaign_type brief ++ " campaign for " ++ company_name brief ++ "."))
     t))%py.

(** [_generate_fallback_response] *)
Definition _generate_fallback_response (brief : CampaignBrief) (error_message : string)
  : M World AgentResponse :=
  (t <- now ;;
   lift (AgentResponse_init (campaign_id brief)
     (PStr ("Error processing campaign brief. The agent encountered an issue but has generated fallback content for "
            ++ company_name brief ++ "'s " ++ campaign_type brief ++ " campaign."))
     (PStr ("Updates coming soon from " ++ company_name brief ++ "! Stay tuned. #"
            ++ company_name brief))
     (PDict
        [ ("subject_line", PStr ("Important Update from " ++ company_name brief));
          ("body_text",
           PStr ("Hello," ++ Str.nl ++ Str.nl
                 ++ "We're working on something exciting and will share more details soon."
                 ++ Str.nl ++ Str.nl ++ "Thank you for your patience." ++ Str.nl ++ Str.nl
                 ++ company_name brief ++ " Team")) ])
     (PStr ("Simple, professional image for " ++ company_name brief
            ++ ", clean design, brand colors"))
     (PStr ("FALLBACK RESPONSE: Agent error - " ++ error_message
            ++ ". Manual review required."))
     t))%py.

(** [_log_interaction]: two readings of the clock, then the month's log
    file is opened for appending and the record is written to it in eight
    calls of [f.write]; an exception of the [open] or of a [write] is
    logged and swallowed, and leaves in the file what was written before
    it. *)
Definition _log_interaction (self : CampaignAgent) (brief : CampaignBrief)
    (response : AgentResponse) : M World unit :=
  (t1 <- now ;;
   t2 <- now ;;
   let log_filename := "agent_logs_" ++ Datetime.strftime_Ym t2 ++ ".md" in
   try_except
     (open_append log_filename ;;;
      f_write log_filename (Str.nl ++ "## Campaign Processing Log" ++ Str.nl) ;;;
      f_write log_filename ("**Timestamp:** " ++ Datetime.isoformat t1 ++ Str.nl) ;;;
      f_write log_filename ("**Campaign ID:** " ++ campaign_id brief ++ Str.nl) ;;;
      f_write log_filename ("**Company:** " ++ company_name brief ++ Str.nl) ;;;
      f_write log_filename ("**Type:** " ++ campaign_type brief ++ Str.nl) ;;;
      f_write log_filename ("**Status:** " ++ "success" ++ Str.nl) ;;;
      f_write log_filename ("**Model:** " ++ model self ++ Str.nl) ;;;
      f_write log_filename ("---" ++ Str.nl ++ Str.nl))
     (fun _ => ret tt))%py.

(** [process_campaign_brief]: mock without a client; otherwise call,
    parse, log; any exception of the body ends in the fallback. *)
Definition process_campaign_brief (self : CampaignAgent) (brief : CampaignBrief)
  : M World AgentResponse :=
  try_except
    (let user_message := _build_user_message brief in
     match client self with
     | None => _generate_mock_response brief
     | Some c =>
         (response <- _call_claude_api self c user_message ;;
          agent_response <- _parse_claude_response response brief ;;
          _log_interaction self brief agent_response ;;;
          ret agent_response)%py
     end)
    (fun e => _generate_fallback_response brief (str_of_exn e)).

End Agent.

End ClaudeAgent.

(* ================================================================= *)
(** * main_app.py *)

Module MainApp.
Import Schemas ClaudeAgent.

(** The module's globals and the world around them. *)
Record App : Type := mk_App {
  agent : CampaignAgent;
  memory_store : AgentMemoryStore;
  world : World
}.

(** A method of [memory_store]. *)
Definition on_store {A} (m : M AgentMemoryStore A) : M App A :=
  fun app =>
    let (r, st) := m (memory_store app) in
    (r, mk_App (agent app) st (world app)).

(** A step that touches the world only. *)
Definition on_world {A} (m : M World A) : M App A :=
  fun app =>
    let (r, w) := m (world app) in
    (r, mk_App (agent app) (memory_store app) w).

Definition the_agent : M App CampaignAgent := fun app => (inr (agent app), app).

(** Modelled from the spec: [MockBriefRequest], imported from [schemas.py]
    and cut off there.  The spec: "body: {campaign_type, company_name?}". *)
Record MockBriefRequest : Type := mk_MockBriefRequest {
  mb_campaign_type : string;
  mb_company_name : option string
}.

Record MockBriefResponse : Type := mk_MockBriefResponse {
  mb_status : string;
  mb_brief : pyval
}.

Record CampaignInfo : Type := mk_CampaignInfo {
  ci_campaign_id : pyval;
  ci_company_name : pyval;
  ci_campaign_type : pyval
}.

Record Summary : Type := mk_Summary {
  s_context_id : string;
  s_agent_role : string;
  s_status : string;
  s_created_at : string;
  s_campaign_info : CampaignInfo
}.

Record ListResponse : Type := mk_ListResponse {
  total_contexts : Z;
  l_contexts : list Summary
}.

Record StatusResponse : Type := mk_StatusResponse {
  u_status : string;
  u_context_id : string;
  u_new_status : string
}.

Record Stats : Type := mk_Stats {
  total_campaigns : Z;
  status_breakdown : dict string Z;
  campaign_types : dict pyval Z;
  st_agent_role : string;
  memory_store_health : string
}.

(** [v.get]: the lookup of the method, which only a dict has.  It comes
    before the arguments of the call are evaluated. *)
Definition py_get_method (v : pyval) : exn + dict string pyval :=
  match v with
  | PDict d => inr d
  | _ => inl (AttributeError ("'" ++ type_name v ++ "' object has no attribute 'get'"))
  end.

(** [v[key] = x] for a [str] key. *)
Definition py_setitem (v : pyval) (key : string) (x : pyval) : exn + pyval :=
  match v with
  | PDict d => inr (PDict (dict_set String.eqb d key x))
  | PList _ => inl (TypeError "list indices must be integers or slices, not str")
  | _ => inl (TypeError ("'" ++ type_name v ++ "' object does not support item assignment"))
  end.

(** [AgentResponse.dict()] *)
Definition AgentResponse_dict (r : AgentResponse) : dict string pyval :=
  [ ("campaign_id", PStr (r_campaign_id r));
    ("context_id", opt_str (r_context_id r));
    ("strategy_summary", PStr (strategy_summary r));
    ("post_text", PStr (post_text r));
    ("email_copy", PDict [ ("subject_line", PStr (subject_line (email_copy r)));
                           ("body_text", PStr (body_text (email_copy r))) ]);
    ("image_prompt", PStr (image_prompt r));
    ("agent_notes", PStr (agent_notes r));
    ("generated_at", PDatetime (generated_at r));
    ("confidence_score", match confidence_score r with
                         | Some f => PFloat f
                         | None => PNone
                         end) ].

(** [response.context_id = context_id] *)
Definition with_context_id (r : AgentResponse) (cid : string) : AgentResponse :=
  mk_AgentResponse (r_campaign_id r) (Some cid) (strategy_summary r) (post_text r)
    (email_copy r) (image_prompt r) (agent_notes r) (generated_at r)
    (confidence_score r).

(** The summary the list handler builds for one context. *)
Definition summary_of (context : MemoryContext) : Summary :=
  mk_Summary (context_id context) (agent_role context) (status context)
    (Datetime.isoformat (created_at context))
    (mk_CampaignInfo
       (dict_get_default String.eqb (input_data context) "campaign_id" PNone)
       (dict_get_default String.eqb (input_data context) "company_name" PNone)
       (dict_get_default String.eqb (input_data context) "campaign_type" PNone)).

Definition valid_statuses : list string :=
  ["draft"; "in_review"; "approved"; "published"].

Section Handlers.
Context `{Runtime}.

(** The default of [limit] in [AgentMemoryStore.list_contexts]: the
    signature is cut off before it in [schemas.py]. *)
Variable list_contexts_default_limit : Z.

(** [POST /campaign/process] *)
Definition process_campaign (brief : CampaignBrief) : M App AgentResponse :=
  try_except
    (self <- the_agent ;;
     response <- on_world (process_campaign_brief self brief) ;;
     t0 <- on_world now ;;
     let context_id := "campaign_" ++ campaign_id brief ++ "_"
                       ++ Datetime.strftime_Ymd_HMS t0 in
     t1 <- on_world now ;;
     t2 <- on_world now ;;
     t3 <- on_world now ;;
     st <- lift (validate_status "draft") ;;
     let memory_context :=
       mk_MemoryContext context_id "Campaign Manager" (CampaignBrief_dict brief)
         [ [ ("timestamp", PStr (Datetime.isoformat t1));
             ("action", PStr "process_campaign");
             ("input", PDict (CampaignBrief_dict brief));
             ("output", PDict (AgentResponse_dict response)) ] ]
         [ ("latest_strategy", PStr (strategy_summary response));
           ("latest_post", PStr (post_text response));
           ("latest_email",
            PDict [ ("subject_line", PStr (subject_line (email_copy response)));
                    ("body_text", PStr (body_text (email_copy response))) ]);
           ("latest_image_prompt", PStr (image_prompt response)) ]
         [agent_notes response] st t2 t3 None None None in
     on_store (store_context context_id memory_context) ;;;
     ret (with_context_id response context_id))%py
    (fun e => raise (HTTPException 500 ("Agent processing failed: " ++ str_of_exn e))).

(** [POST /mock/brief] *)
Definition create_mock_brief (request : MockBriefRequest) : M App MockBriefResponse :=
  try_except
    (text <- on_world (read_file "mock_data.json") ;;
     mock_templates <- lift (json_loads text) ;;
     templates <- lift (py_get_method mock_templates) ;;
     default <- lift (py_getitem mock_templates "product_launch") ;;
     let template :=
       dict_get_default String.eqb templates (mb_campaign_type request) default in
     template <- match mb_company_name request with
                 | Some (String c rest) =>
                     (template <- lift (py_setitem template "company_name"
                                          (PStr (String c rest))) ;;
                      lift (py_setitem template "brand_name" (PStr (String c rest))))
                 | _ => ret template
                 end ;;
     t0 <- on_world now ;;
     template <- lift (py_setitem template "campaign_id"
                         (PStr ("mock_" ++ Datetime.strftime_Ymd_HMS t0))) ;;
     t1 <- on_world now ;;
     template <- lift (py_setitem template "created_date"
                         (PStr (Datetime.isoformat t1))) ;;
     t2 <- on_world now ;;
     t3 <- on_world now ;;
     due <- lift (Datetime.replace_day t2 (day t3 + 14)) ;;
     template <- lift (py_setitem template "deadline" (PStr (Datetime.isoformat due))) ;;
     ret (mk_MockBriefResponse "success" template))%py
    (fun e => raise (HTTPException 500 ("Mock brief creation failed: " ++ str_of_exn e))).

(** [GET /memory/{context_id}] *)
Definition get_context_handler (cid : string) : M App MemoryContext :=
  (context <- on_store (get_context cid) ;;
   match context with
   | None => raise (HTTPException 404 "Context not found")
   | Some c => ret c
   end)%py.

(** [GET /memory]: one summary for each context the store returns. *)
Definition list_contexts_handler (limit : Z) : M App ListResponse :=
  (contexts <- on_store (list_contexts limit) ;;
   let summaries := map summary_of contexts in
   ret (mk_ListResponse (Z.of_nat (length summaries)) summaries))%py.

(** [PUT /memory/{context_id}/status] *)
Definition update_context_status (cid new_status : string) : M App StatusResponse :=
  if negb (existsb (String.eqb new_status) valid_statuses)
  then raise (HTTPException 400
    "Invalid status. Must be one of: ['draft', 'in_review', 'approved', 'published']")
  else
    (success <- on_store (update_status cid new_status) ;;
     if negb success
     then raise (HTTPException 404 "Context not found")
     else ret (mk_StatusResponse "success" cid new_status))%py.

(** [d[k] = d.get(k, 0) + 1] *)
Definition bump {K} (eqb : K -> K -> bool) (d : dict K Z) (k : K) : dict K Z :=
  dict_set eqb d k (dict_get_default eqb d k 0 + 1).

(** The loop of [get_agent_stats] over the contexts. *)
Fixpoint count_contexts (contexts : list MemoryContext)
    (status_counts : dict string Z) (campaign_types : dict pyval Z)
  : exn + (dict string Z * dict pyval Z) :=
  match contexts with
  | [] => inr (status_counts, campaign_types)
  | context :: rest =>
      let status_counts := bump String.eqb status_counts (status context) in
      let campaign_type :=
        dict_get_default String.eqb (input_data context) "campaign_type"
          (PStr "unknown") in
      if hashable campaign_type
      then count_contexts rest status_counts
             (bump key_eqb campaign_types campaign_type)
      else inl (TypeError ("unhashable type: '" ++ type_name campaign_type ++ "'"))
  end.

(** [GET /agent/stats]: [list_contexts()] is called without a limit, so
    the store applies its default. *)
Definition get_agent_stats : M App Stats :=
  (contexts <- on_store (list_contexts list_contexts_default_limit) ;;
   counts <- lift (count_contexts contexts [] []) ;;
   ret (mk_Stats (Z.of_nat (length contexts)) (fst counts) (snd counts)
          "Campaign Manager" "operational"))%py.

End Handlers.

End MainApp.

(* ================================================================= *)
(** * Vocabulary of the properties *)

Module Spec.
Import Schemas ClaudeAgent MainApp.

(** [r] with another time of generation. *)
Definition with_generated_at (r : AgentResponse) (t : datetime) : AgentResponse :=
  mk_AgentResponse (r_campaign_id r) (r_context_id r) (strategy_summary r)
    (post_text r) (email_copy r) (image_prompt r) (agent_notes r) t
    (confidence_score r).

(** Two responses that agree on every field but [generated_at]. *)
Definition same_but_generated_at (r r' : AgentResponse) : Prop :=
  r_campaign_id r' = r_campaign_id r /\ r_context_id r' = r_context_id r /\
  strategy_summary r' = strategy_summary r /\ post_text r' = post_text r /\
  email_copy r' = email_copy r /\ image_prompt r' = image_prompt r /\
  agent_notes r' = agent_notes r /\ confidence_score r' = confidence_score r.

(** Two contexts that agree on every field but [status]. *)
Definition same_but_status (c c' : MemoryContext) : Prop :=
  context_id c' = context_id c /\ agent_role c' = agent_role c /\
  input_data c' = input_data c /\
  conversation_history c' = conversation_history c /\
  output_memory c' = output_memory c /\ reasoning_log c' = reasoning_log c /\
  created_at c' = created_at c /\ updated_at c' = updated_at c /\
  m_assigned_to c' = m_assigned_to c /\ reviewed_by c' = reviewed_by c /\
  approval_notes c' = approval_notes c.

(** The number of contexts the store holds. *)
Definition store_size (st : AgentMemoryStore) : Z :=
  Z.of_nat (length (contexts st)).

(** No identifier is stored twice: the list of pairs is a dict. *)
Definition store_wf (st : AgentMemoryStore) : Prop :=
  NoDup (dict_keys (contexts st)).

(** The sum of the counts of a breakdown. *)
Definition total_count {K} (d : dict K Z) : Z :=
  fold_right Z.add 0 (dict_values d).

(** The campaign type [get_agent_stats] reads from a context. *)
Definition campaign_type_of (c : MemoryContext) : pyval :=
  dict_get_default String.eqb (input_data c) "campaign_type" (PStr "unknown").

(** Every stored campaign type can be a key of the breakdown. *)
Definition countable (st : AgentMemoryStore) : Prop :=
  Forall (fun c => hashable (campaign_type_of c) = true) (dict_values (contexts st)).

(** The errors [_parse_claude_response] raises on a text that decodes to
    something else than the JSON object asked for, or that the decoder
    refuses as JSON. *)
Inductive parse_error : exn -> Prop :=
| not_json : parse_error (ValueError "Claude response was not valid JSON")
| missing_field (field : string) :
    In field required_fields ->
    parse_error (ValueError ("Missing required field: " ++ field))
| not_an_object (msg : string) : parse_error (TypeError msg).

(** Every run of [m] from a state that satisfies [P] raises. *)
Definition raises_from {S A} (P : S -> Prop) (m : M S A) : Prop :=
  forall s, P s -> exists e s', m s = (inl e, s').

(** A run of [m] from a state that satisfies [P] ends in one that does. *)
Definition keeps {S A} (P : S -> Prop) (m : M S A) : Prop :=
  forall s, P s -> P (snd (m s)).

(** The clock of the application stands still at [t]. *)
Definition clock_stands_at (t : datetime) (app : App) : Prop :=
  forall n, clock (world app) n = t.

(** The platforms and the notes as the prompt shows them: nothing for an
    absent value and for an empty one. *)
Definition shown_platforms (b : CampaignBrief) : list string :=
  match platforms b with Some l => l | None => [] end.

Definition shown_notes (b : CampaignBrief) : string :=
  match additional_notes b with Some s => s | None => EmptyString end.

(** Two briefs that agree on everything the prompt shows. *)
Definition same_prompt_fields (b b' : CampaignBrief) : Prop :=
  campaign_id b' = campaign_id b /\ company_name b' = company_name b /\
  brand_name b' = brand_name b /\ campaign_type b' = campaign_type b /\
  objective b' = objective b /\ target_audience b' = target_audience b /\
  key_message b' = key_message b /\ brand_voice b' = brand_voice b /\
  brand_values b' = brand_values b /\ budget b' = budget b /\
  created_date b' = created_date b /\ deadline b' = deadline b /\
  shown_platforms b' = shown_platforms b /\ shown_notes b' = shown_notes b.

(** A context whose input is the dump of a brief. *)
Definition from_brief (c : MemoryContext) : Prop :=
  exists b, input_data c = CampaignBrief_dict b.

(** A store that holds such contexts only. *)
Definition from_briefs (st : AgentMemoryStore) : Prop :=
  Forall from_brief (dict_values (contexts st)).

(** The clock of a world is the sequence [f]. *)
Definition clock_is (f : nat -> datetime) (w : World) : Prop := clock w = f.

(** The six numbers a time stamp prints. *)
Definition same_second (t t' : datetime) : Prop :=
  year t' = year t /\ month t' = month t /\ day t' = day t /\
  hour t' = hour t /\ minute t' = minute t /\ second t' = second t.

(** The identifier [process_campaign] gives the context of a brief at [t]. *)
Definition context_id_at (brief : CampaignBrief) (t : datetime) : string :=
  "campaign_" ++ campaign_id brief ++ "_" ++ Datetime.strftime_Ymd_HMS t.

(** A value that is neither a list nor a dict. *)
Definition scalar (v : pyval) : Prop :=
  match v with
  | PList _ | PDict _ => False
  | _ => True
  end.

(** The template with the company of the request, when it names one. *)
Definition with_company (request : MockBriefRequest) (tpl : dict string pyval)
  : dict string pyval :=
  match mb_company_name request with
  | Some (String c rest) =>
      dict_set String.eqb
        (dict_set String.eqb tpl "company_name" (PStr (String c rest)))
        "brand_name" (PStr (String c rest))
  | _ => tpl
  end.

Section Output.
Context `{Runtime}.

(** A text the decoder refuses as JSON. *)
Definition undecodable (raw : string) : Prop :=
  exists msg, json_loads (str_strip raw) = inl (JSONDecodeError msg).

(** A text on which the decoder raises [e], an exception of another type
    than [JSONDecodeError]. *)
Definition breaks_decoder (raw : string) (e : exn) : Prop :=
  json_loads (str_strip raw) = inl e /\ forall msg, e <> JSONDecodeError msg.

(** A text that decodes to an object without one of the five keys. *)
Definition lacks_a_key (raw : string) : Prop :=
  exists d field,
    json_loads (str_strip raw) = inr (PDict d) /\
    In field required_fields /\ dict_mem String.eqb d field = false.

(** The first of the five keys that an object lacks. *)
Definition first_missing (d : dict string pyval) : option string :=
  find (fun field => negb (dict_mem String.eqb d field)) required_fields.

(** A text that decodes to a value that is not an object. *)
Definition not_object (raw : string) : Prop :=
  exists v, json_loads (str_strip raw) = inr v /\
            forall d, v <> PDict d.

(** The request [_call_claude_api] sends for a brief. *)
Definition request_for (self : CampaignAgent) (brief : CampaignBrief) : Request :=
  mk_Request (model self) (max_tokens self) "0.7" (system_prompt self)
    [("user", _build_user_message brief)].

(** The note a fallback response carries for an exception. *)
Definition fallback_note (e : exn) : string :=
  "FALLBACK RESPONSE: Agent error - " ++ str_of_exn e ++ ". Manual review required.".

End Output.

(** The eight texts of the record [_log_interaction] writes for a brief
    at [t], in the order of the calls. *)
Definition log_lines (self : CampaignAgent) (brief : CampaignBrief) (t : datetime)
  : list string :=
  [ Str.nl ++ "## Campaign Processing Log" ++ Str.nl;
    "**Timestamp:** " ++ Datetime.isoformat t ++ Str.nl;
    "**Campaign ID:** " ++ campaign_id brief ++ Str.nl;
    "**Company:** " ++ company_name brief ++ Str.nl;
    "**Type:** " ++ campaign_type brief ++ Str.nl;
    "**Status:** success" ++ Str.nl;
    "**Model:** " ++ model self ++ Str.nl;
    "---" ++ Str.nl ++ Str.nl ].

(** What a file gains from texts written one after the other: the texts
    before the first one that UTF-8 refuses. *)
Fixpoint written (lines : list string) : string :=
  match lines with
  | [] => EmptyString
  | line :: rest => if Str.encodable line then line ++ written rest else EmptyString
  end.

(** The name of the log file of the month of [t]. *)
Definition log_file_of (t : datetime) : string :=
  "agent_logs_" ++ Datetime.strftime_Ym t ++ ".md".

(** The world with [text] as the content of the file [name]. *)
Definition with_file (w : World) (name text : string) : World :=
  mk_World (clock w) (ticks w) (dict_set String.eqb (files w) name text) (read_only w).


End Spec.

(* ================================================================= *)
(** * Sample data for the examples *)

Module Sample.
Import Schemas ClaudeAgent MainApp.

Definition is_space (c : ascii) : bool :=
  let n := nat_of_ascii c in
  (((9 <=? n) && (n <=? 13)) || ((28 <=? n) && (n <=? 32)))%nat.

Fixpoint lstrip (s : string) : string :=
  match s with
  | EmptyString => EmptyString
  | String c rest => if is_space c then lstrip rest else s
  end.

Definition reverse (s : string) : string :=
  string_of_list_ascii (rev (list_ascii_of_string s)).

(** [str.strip()] on ASCII text. *)
Definition strip (s : string) : string := reverse (lstrip (reverse (lstrip s))).

Definition dq : string := String (ascii_of_nat 34) EmptyString.

(** A [mock_data.json] with one template. *)
Definition mock_data_json : string :=
  "{" ++ dq ++ "product_launch" ++ dq ++ ": {" ++ dq ++ "company_name" ++ dq ++ ": "
  ++ dq ++ "TechStart Inc" ++ dq ++ ", " ++ dq ++ "campaign_type" ++ dq ++ ": "
  ++ dq ++ "product_launch" ++ dq ++ "}}".

Definition mock_data : pyval :=
  PDict [ ("product_launch",
           PDict [ ("company_name", PStr "TechStart Inc");
                   ("campaign_type", PStr "product_launch") ]) ].

(** A reply that is an object with two of the five keys. *)
Definition partial_reply_json : string :=
  "{" ++ dq ++ "strategy_summary" ++ dq ++ ": " ++ dq ++ "s" ++ dq ++ ", "
  ++ dq ++ "post_text" ++ dq ++ ": " ++ dq ++ "p" ++ dq ++ "}".

Definition partial_reply : pyval :=
  PDict [ ("strategy_summary", PStr "s"); ("post_text", PStr "p") ].

(** Another reply with the same two keys. *)
Definition other_partial_reply_json : string :=
  "{" ++ dq ++ "strategy_summary" ++ dq ++ ": " ++ dq ++ "t" ++ dq ++ ", "
  ++ dq ++ "post_text" ++ dq ++ ": " ++ dq ++ "q" ++ dq ++ "}".

Definition other_partial_reply : pyval :=
  PDict [ ("strategy_summary", PStr "t"); ("post_text", PStr "q") ].

(** A text of [n] opening brackets. *)
Fixpoint brackets (n : nat) : string :=
  match n with
  | O => EmptyString
  | S n' => String "[" (brackets n')
  end.

(** Brackets nested deeper than the decoder recurses (CPython 3.11 stops
    at its recursion limit, 1000 unless it was set). *)
Definition deep_json : string := brackets 2000.

(** [json.loads] on the documents of the examples; the other text the
    examples decode, [oops], is not JSON and gets the decoder's message
    for it. *)
Definition loads (s : string) : exn + pyval :=
  if String.eqb s mock_data_json then inr mock_data
  else if String.eqb s partial_reply_json then inr partial_reply
  else if String.eqb s other_partial_reply_json then inr other_partial_reply
  else if String.eqb s "[]" then inr (PList [])
  else if String.eqb s deep_json
  then inl (RecursionError
              "maximum recursion depth exceeded while decoding a JSON array from a unicode string")
  else inl (JSONDecodeError "Expecting value: line 1 column 1 (char 0)").

(** pydantic in strict mode: a [str] field takes a [str] only. *)
Definition strict_str (v : pyval) : option string :=
  match v with PStr s => Some s | _ => None end.

Definition atom_eqb (a b : pyval) : bool :=
  match a, b with
  | PStr x, PStr y => String.eqb x y
  | PNone, PNone => true
  | PInt x, PInt y => Z.eqb x y
  | _, _ => false
  end.

(** The runtime of the examples; the texts of pydantic's and of the
    codec's errors are abridged. *)
Definition runtime : Runtime :=
  {| str_strip := strip;
     json_loads := loads;
     pydantic_str := strict_str;
     pydantic_str_of_str := fun s => eq_refl;
     validation_text := fun model fields =>
       "validation errors for " ++ model ++ ": " ++ Str.join ", " fields;
     encode_error_text := fun _ =>
       "'utf-8' codec can't encode character: surrogates not allowed";
     key_eqb := atom_eqb;
     key_eqb_str := fun a b => eq_refl |}.

(** The example of [CampaignBrief.Config]. *)
Definition brief : CampaignBrief :=
  mk_CampaignBrief "CAMP_2024_001" "TechStart Inc" "TechStart" "product_launch"
    "Launch new SaaS product to tech professionals"
    "Software developers and tech leads aged 25-45"
    "Revolutionary development tools that save 50% of coding time"
    "Professional yet approachable, technical but not jargony"
    "Innovation, efficiency, developer-first mindset"
    "$50,000 - $75,000"
    (Some ["LinkedIn"; "Twitter"; "Email"; "Developer blogs"])
    "2024-12-15T23:59:59Z" "2024-11-01T10:00:00Z"
    (Some "Focus on developer pain points and time-saving benefits")
    None None (Some "medium").

(** 31 January 2024, noon. *)
Definition jan31 : datetime := mk_datetime 2024 1 31 12 0 0 0.

(** 10 January 2024, noon. *)
Definition jan10 : datetime := mk_datetime 2024 1 10 12 0 0 0.

(** A world whose clock stands still at [t]. *)
Definition world_at (t : datetime) : World :=
  mk_World (fun _ => t) 0 [("mock_data.json", mock_data_json)] false.

(** A client whose model answers with text that is not JSON. *)
Definition chatty : Anthropic := mk_Anthropic (fun _ => inr "oops").

(** A client whose model leaves keys out. *)
Definition forgetful : Anthropic := mk_Anthropic (fun _ => inr partial_reply_json).

(** A client whose model answers with brackets only. *)
Definition nesting : Anthropic := mk_Anthropic (fun _ => inr deep_json).

(** The surrogate [U+DC80], and the sample brief with it as identifier. *)
Definition surrogate : string :=
  String (ascii_of_nat 237) (String (ascii_of_nat 178) (String (ascii_of_nat 128) EmptyString)).

Definition brief_with_surrogate : CampaignBrief :=
  mk_CampaignBrief surrogate "TechStart Inc" "TechStart" "product_launch"
    "Launch new SaaS product to tech professionals"
    "Software developers and tech leads aged 25-45"
    "Revolutionary development tools that save 50% of coding time"
    "Professional yet approachable, technical but not jargony"
    "Innovation, efficiency, developer-first mindset"
    "$50,000 - $75,000"
    (Some ["LinkedIn"; "Twitter"; "Email"; "Developer blogs"])
    "2024-12-15T23:59:59Z" "2024-11-01T10:00:00Z"
    (Some "Focus on developer pain points and time-saving benefits")
    None None (Some "medium").

Definition agent_with (c : option Anthropic) : CampaignAgent :=
  mk_CampaignAgent c "Campaign Manager" "claude-3-sonnet-20241022" 2000 "system prompt".

(** A stored context, as [process_campaign] builds it. *)
Definition context (cid : string) : MemoryContext :=
  mk_MemoryContext cid "Campaign Manager" (CampaignBrief_dict brief) [] []
    [] "draft" jan10 jan10 None None None.

(** The identifier of the [n]-th context: [c], then [n] times [x]. *)
Fixpoint tail_x (n : nat) : string :=
  match n with
  | O => EmptyString
  | S n' => String "x" (tail_x n')
  end.

Definition cid_of (n : nat) : string := String "c" (tail_x n).

(** A store with [n] contexts, under [cid_of (n-1)], ..., [cid_of 0]. *)
Fixpoint contexts_upto (n : nat) : dict string MemoryContext :=
  match n with
  | O => []
  | S n' => (cid_of n', context (cid_of n')) :: contexts_upto n'
  end.

Definition app_with (n : nat) : App :=
  mk_App (agent_with None) (mk_AgentMemoryStore (contexts_upto n)) (world_at jan10).

(** A request for a mock brief, and the application on 31 January. *)
Definition request : MockBriefRequest := mk_MockBriefRequest "awareness" (Some "Acme").

Definition app_on_jan31 : App :=
  mk_App (agent_with None) AgentMemoryStore_init (world_at jan31).

End Sample.

(** More documents and clients for the examples. *)
Module Sample2.
Import Schemas ClaudeAgent MainApp.

(** A JSON string literal and a member of an object. *)
Definition q (s : string) : string := Str.dq ++ s ++ Str.dq.

Definition member (key value : string) : string := q key ++ ": " ++ value.

(** A reply with the five keys and one more. *)
Definition good_reply_json : string :=
  "{" ++ member "strategy_summary" (q "Lead with time saved.") ++ ", "
  ++ member "post_text" (q "Ship faster. #DevTools") ++ ", "
  ++ member "email_copy"
       ("{" ++ member "subject_line" (q "Cut your coding time") ++ ", "
        ++ member "body_text" (q "Hi Developer,") ++ "}") ++ ", "
  ++ member "image_prompt" (q "A clean desk with two monitors") ++ ", "
  ++ member "agent_notes" (q "A/B test the subject line.") ++ ", "
  ++ member "tone" (q "calm") ++ "}".

Definition good_email : dict string pyval :=
  [ ("subject_line", PStr "Cut your coding time"); ("body_text", PStr "Hi Developer,") ].

Definition good_reply : dict string pyval :=
  [ ("strategy_summary", PStr "Lead with time saved.");
    ("post_text", PStr "Ship faster. #DevTools");
    ("email_copy", PDict good_email);
    ("image_prompt", PStr "A clean desk with two monitors");
    ("agent_notes", PStr "A/B test the subject line.");
    ("tone", PStr "calm") ].

(** A reply whose [email_copy] is a string. *)
Definition bad_email_reply_json : string :=
  "{" ++ member "strategy_summary" (q "s") ++ ", " ++ member "post_text" (q "p") ++ ", "
  ++ member "email_copy" (q "soon") ++ ", " ++ member "image_prompt" (q "i") ++ ", "
  ++ member "agent_notes" (q "n") ++ "}".

Definition bad_email_reply : dict string pyval :=
  [ ("strategy_summary", PStr "s"); ("post_text", PStr "p");
    ("email_copy", PStr "soon"); ("image_prompt", PStr "i"); ("agent_notes", PStr "n") ].

(** Templates that have [awareness] and lack [product_launch]. *)
Definition templates_json : string :=
  "{" ++ member "awareness" ("{" ++ member "company_name" (q "Acme") ++ "}") ++ "}".

Definition templates : dict string pyval :=
  [ ("awareness", PDict [ ("company_name", PStr "Acme") ]) ].

(** [json.loads] on these documents too. *)
Definition loads (s : string) : exn + pyval :=
  if String.eqb s good_reply_json then inr (PDict good_reply)
  else if String.eqb s bad_email_reply_json then inr (PDict bad_email_reply)
  else if String.eqb s templates_json then inr (PDict templates)
  else Sample.loads s.

Definition runtime : Runtime :=
  {| str_strip := Sample.strip;
     json_loads := loads;
     pydantic_str := Sample.strict_str;
     pydantic_str_of_str := fun s => eq_refl;
     validation_text := fun model fields =>
       "validation errors for " ++ model ++ ": " ++ Str.join ", " fields;
     encode_error_text := fun _ =>
       "'utf-8' codec can't encode character: surrogates not allowed";
     key_eqb := Sample.atom_eqb;
     key_eqb_str := fun a b => eq_refl |}.

(** A provider that cannot be reached, one whose model answers well, and
    one whose model writes the email as a string. *)
Definition unreachable : Anthropic :=
  mk_Anthropic (fun _ => inl (ProviderError "Connection error.")).

Definition helpful : Anthropic := mk_Anthropic (fun _ => inr good_reply_json).

Definition sloppy : Anthropic := mk_Anthropic (fun _ => inr bad_email_reply_json).

(** The sample brief in other hands: the workflow fields differ and the
    platforms are the same. *)
Definition brief_reassigned : CampaignBrief :=
  mk_CampaignBrief "CAMP_2024_001" "TechStart Inc" "TechStart" "product_launch"
    "Launch new SaaS product to tech professionals"
    "Software developers and tech leads aged 25-45"
    "Revolutionary development tools that save 50% of coding time"
    "Professional yet approachable, technical but not jargony"
    "Innovation, efficiency, developer-first mindset"
    "$50,000 - $75,000"
    (Some ["LinkedIn"; "Twitter"; "Email"; "Developer blogs"])
    "2024-12-15T23:59:59Z" "2024-11-01T10:00:00Z"
    (Some "Focus on developer pain points and time-saving benefits")
    (Some "rec0042") (Some "alice") (Some "high").

(** 10 January 2024, noon and a little. *)
Definition jan10_later : datetime := mk_datetime 2024 1 10 12 0 0 250000.

(** An application whose directory has the templates without the default,
    and one without the file. *)
Definition app_with_templates : App :=
  mk_App (Sample.agent_with None) AgentMemoryStore_init
    (mk_World (fun _ => Sample.jan10) 0 [("mock_data.json", templates_json)] false).

Definition app_without_file : App :=
  mk_App (Sample.agent_with None) AgentMemoryStore_init
    (mk_World (fun _ => Sample.jan10) 0 [] false).

End Sample2.

(* ================================================================= *)
(** * Facts about strings *)

Section StringFacts.

Lemma starts_with_iff (p s : string) :
  Str.starts_with p s = true <-> exists post, s = p ++ post.
Proof.
  revert s; induction p as [|c p IH]; intros s; simpl.
  - split; [intros _; exists s; reflexivity | intros _; reflexivity].
  - destruct s as [|c' s].
    + split; [discriminate | intros [post Hpost]; discriminate].
    + rewrite andb_true_iff, Ascii.eqb_eq, IH. split.
      * intros [-> [post Hpost]]. exists post. rewrite Hpost. reflexivity.
      * intros [post Hpost]. inversion Hpost. split; [reflexivity|].
        exists post. reflexivity.
Qed.

Lemma contains_iff (needle hay : string) :
  Str.contains needle hay = true <-> Str.occurs_in needle hay.
Proof.
  unfold Str.occurs_in.
  induction hay as [|c hay IH].
  - cbn [Str.contains]. rewrite orb_false_r, starts_with_iff. split.
    + intros [post Hpost]. exists EmptyString, post. exact Hpost.
    + intros [pre [post Hpost]]. destruct pre; [|discriminate].
      exists post. exact Hpost.
  - cbn [Str.contains]. rewrite orb_true_iff, starts_with_iff, IH. split.
    + intros [[post Hpost] | [pre [post Hpost]]].
      * exists EmptyString, post. exact Hpost.
      * exists (String c pre), post. simpl. rewrite Hpost. reflexivity.
    + intros [pre [post Hpost]]. destruct pre as [|c' pre].
      * left. exists post. exact Hpost.
      * right. exists pre, post. inversion Hpost. reflexivity.
Qed.

Lemma append_assoc (a b c : string) : (a ++ b) ++ c = a ++ (b ++ c).
Proof. induction a as [|x a IH]; simpl; [reflexivity | rewrite IH; reflexivity]. Qed.

Lemma occurs_in_middle (pre needle post : string) :
  Str.occurs_in needle (pre ++ needle ++ post).
Proof. exists pre, post. reflexivity. Qed.

Lemma append_nil_r (a : string) : a ++ EmptyString = a.
Proof. induction a as [|x a IH]; simpl; [reflexivity | rewrite IH; reflexivity]. Qed.









End StringFacts.

(* ================================================================= *)
(** * Facts about dicts *)

Section DictFacts.
Context {K V : Type}.
Variable eqb : K -> K -> bool.
Hypothesis eqb_eq : forall a b, eqb a b = true <-> a = b.

Lemma eqb_refl (k : K) : eqb k k = true.
Proof. apply eqb_eq. reflexivity. Qed.

Lemma eqb_neq (a b : K) : a <> b -> eqb a b = false.
Proof.
  intros Hne. destruct (eqb a b) eqn:E; [|reflexivity].
  apply eqb_eq in E. contradiction.
Qed.

(** Reading a key just written gives the value written. *)
Lemma dict_get_set_same (d : dict K V) (k : K) (v : V) :
  dict_get eqb (dict_set eqb d k v) k = Some v.
Proof.
  induction d as [|[k' v'] d IH]; simpl.
  - rewrite eqb_refl. reflexivity.
  - destruct (eqb k' k) eqn:E; simpl; rewrite E; [reflexivity | exact IH].
Qed.

(** Writing a key leaves the other keys as they were. *)
Lemma dict_get_set_other (d : dict K V) (k k2 : K) (v : V) :
  k2 <> k -> dict_get eqb (dict_set eqb d k v) k2 = dict_get eqb d k2.
Proof.
  intros Hne. induction d as [|[k' v'] d IH]; simpl.
  - rewrite (eqb_neq k k2); [reflexivity | congruence].
  - destruct (eqb k' k) eqn:E; simpl.
    + apply eqb_eq in E. subst k'.
      rewrite (eqb_neq k k2); [reflexivity | congruence].
    + destruct (eqb k' k2); [reflexivity | exact IH].
Qed.

(** Of two assignments to a key the second stays. *)
Lemma dict_set_set (d : dict K V) (k : K) (v v2 : V) :
  dict_set eqb (dict_set eqb d k v) k v2 = dict_set eqb d k v2.
Proof.
  induction d as [|[k' v'] d IH]; simpl.
  - rewrite eqb_refl. reflexivity.
  - destruct (eqb k' k) eqn:E; simpl; rewrite E; [reflexivity | rewrite IH; reflexivity].
Qed.

(** Writing a key that is present moves no key and adds none. *)
Lemma dict_keys_set_present (d : dict K V) (k : K) (v v0 : V) :
  dict_get eqb d k = Some v0 -> dict_keys (dict_set eqb d k v) = dict_keys d.
Proof.
  induction d as [|[k' v'] d IH]; simpl; [discriminate|].
  destruct (eqb k' k) eqn:E; simpl; intros Hget.
  - reflexivity.
  - rewrite (IH Hget). reflexivity.
Qed.

Lemma dict_get_none_not_in (d : dict K V) (k : K) :
  dict_get eqb d k = None -> ~ In k (dict_keys d).
Proof.
  induction d as [|[k' v'] d IH]; simpl; [tauto|].
  destruct (eqb k' k) eqn:E; [discriminate|].
  intros Hget [Heq | Hin].
  - subst k'. rewrite eqb_refl in E. discriminate.
  - exact (IH Hget Hin).
Qed.

(** Writing a key that is absent puts it last. *)
Lemma dict_keys_set_absent (d : dict K V) (k : K) (v : V) :
  dict_get eqb d k = None -> dict_keys (dict_set eqb d k v) = (dict_keys d ++ [k])%list.
Proof.
  induction d as [|[k' v'] d IH]; simpl; [reflexivity|].
  destruct (eqb k' k) eqn:E; simpl; [discriminate|].
  intros Hget. rewrite (IH Hget). reflexivity.
Qed.

(** An assignment keeps the keys of a dict distinct. *)
Lemma dict_set_NoDup (d : dict K V) (k : K) (v : V) :
  NoDup (dict_keys d) -> NoDup (dict_keys (dict_set eqb d k v)).
Proof.
  intros Hnd. destruct (dict_get eqb d k) as [v0|] eqn:Hget.
  - rewrite (dict_keys_set_present d k v v0 Hget). exact Hnd.
  - rewrite (dict_keys_set_absent d k v Hget).
    apply NoDup_app; [exact Hnd | constructor; [intros [] | constructor] |].
    intros x Hin [Hx | []]. subst x.
    exact (dict_get_none_not_in d k Hget Hin).
Qed.

End DictFacts.

Section CountFacts.
Context {K : Type}.
Variable eqb : K -> K -> bool.

(** One more occurrence counted is one more in the sum of the counts,
    whatever the comparison of the keys. *)
Lemma total_count_set (d : dict K Z) (k : K) :
  Spec.total_count (dict_set eqb d k (dict_get_default eqb d k 0 + 1))
  = Spec.total_count d + 1.
Proof.
  unfold Spec.total_count, dict_get_default, dict_values.
  induction d as [|[k' v'] d IH]; simpl.
  - reflexivity.
  - destruct (eqb k' k) eqn:E; simpl; [lia|].
    rewrite IH. lia.
Qed.

End CountFacts.

(* ================================================================= *)
(** * The context store *)

Section StoreFacts.
Import Schemas MainApp Spec.

Lemma app_eta (app : App) :
  mk_App (agent app) (memory_store app) (world app) = app.
Proof. destruct app; reflexivity. Qed.

Lemma with_status_same_but_status (c : MemoryContext) (s : string) :
  status (with_status c s) = s /\ same_but_status c (with_status c s).
Proof. unfold same_but_status. simpl. repeat split. Qed.

Lemma in_valid_statuses (s : string) :
  existsb (String.eqb s) valid_statuses = true <-> In s valid_statuses.
Proof.
  rewrite existsb_exists. split.
  - intros [x [Hin Heq]]. apply String.eqb_eq in Heq. subst x. exact Hin.
  - intros Hin. exists s. split; [exact Hin | apply String.eqb_refl].
Qed.

(** Storing keeps the identifiers of the store distinct. *)
Lemma store_context_wf (cid : string) (context : MemoryContext)
    (self : AgentMemoryStore) :
  store_wf self -> store_wf (snd (store_context cid context self)).
Proof. unfold store_wf. simpl. apply dict_set_NoDup, String.eqb_eq. Qed.

(** So does a status update. *)
Lemma update_status_wf (cid new_status : string) (self : AgentMemoryStore) :
  store_wf self -> store_wf (snd (update_status cid new_status self)).
Proof.
  unfold store_wf, update_status.
  destruct (dict_get String.eqb (contexts self) cid); simpl; [|tauto].
  apply dict_set_NoDup, String.eqb_eq.
Qed.

(** What the status handler does once the status is accepted. *)
Lemma update_context_status_accepted (cid new_status : string) (app : App) :
  In new_status valid_statuses ->
  update_context_status cid new_status app =
  match dict_get String.eqb (contexts (memory_store app)) cid with
  | None => (inl (HTTPException 404 "Context not found"), app)
  | Some c =>
      (inr (mk_StatusResponse "success" cid new_status),
       mk_App (agent app)
         (mk_AgentMemoryStore
            (dict_set String.eqb (contexts (memory_store app)) cid
               (with_status c new_status)))
         (world app))
  end.
Proof.
  intros Hin. apply in_valid_statuses in Hin.
  unfold update_context_status. rewrite Hin. simpl.
  unfold bind, on_store, update_status.
  destruct (dict_get String.eqb (contexts (memory_store app)) cid); simpl.
  - reflexivity.
  - unfold raise. rewrite app_eta. reflexivity.
Qed.

(** What it does with any other status. *)
Lemma update_context_status_rejected (cid new_status : string) (app : App) :
  ~ In new_status valid_statuses ->
  update_context_status cid new_status app =
  (inl (HTTPException 400
     "Invalid status. Must be one of: ['draft', 'in_review', 'approved', 'published']"),
   app).
Proof.
  intros Hnot. unfold update_context_status.
  destruct (existsb (String.eqb new_status) valid_statuses) eqn:E.
  - apply in_valid_statuses in E. contradiction.
  - reflexivity.
Qed.

End StoreFacts.

Section StoreClaims.
Import Schemas MainApp Spec.

(** C8.  Round trip: for every identifier, every context and every state of
    the store, [store_context] succeeds, and [get_context] with the same
    identifier right after it returns the context that was stored, equal in
    all its fields; the fetch itself leaves the store as it is. *)
Theorem store_then_get_round_trip (cid : string) (context : MemoryContext)
    (self : AgentMemoryStore) :
  exists self',
    store_context cid context self = (inr true, self') /\
    get_context cid self' = (inr (Some context), self').
Proof.
  eexists. split; [reflexivity|].
  unfold get_context. simpl.
  rewrite (dict_get_set_same String.eqb String.eqb_eq). reflexivity.
Qed.

(** C7.  A status update overwrites the status and nothing else.  For an
    identifier that is stored, [update_status] returns [True], the context
    under the identifier has the new status and every other field as
    before, [updated_at] included, and the other identifiers and the order
    of the store are untouched; for an identifier that is absent it
    returns [False] and the store is unchanged.  Through the handler, an
    accepted status on a stored identifier answers with success and has
    that effect on the store and none on the rest of the application. *)
Theorem update_status_overwrites_status_only (cid new_status : string) :
  (forall self c,
      dict_get String.eqb (contexts self) cid = Some c ->
      exists self' c',
        update_status cid new_status self = (inr true, self') /\
        dict_get String.eqb (contexts self') cid = Some c' /\
        status c' = new_status /\ same_but_status c c' /\
        dict_keys (contexts self') = dict_keys (contexts self) /\
        forall other, other <> cid ->
          dict_get String.eqb (contexts self') other
          = dict_get String.eqb (contexts self) other) /\
  (forall self,
      dict_get String.eqb (contexts self) cid = None ->
      update_status cid new_status self = (inr false, self)) /\
  (forall app c,
      In new_status valid_statuses ->
      dict_get String.eqb (contexts (memory_store app)) cid = Some c ->
      exists app',
        update_context_status cid new_status app
        = (inr (mk_StatusResponse "success" cid new_status), app') /\
        memory_store app' = snd (update_status cid new_status (memory_store app)) /\
        agent app' = agent app /\ world app' = world app).
Proof.
  split; [|split].
  - intros self c Hget.
    exists (mk_AgentMemoryStore
              (dict_set String.eqb (contexts self) cid (with_status c new_status))),
           (with_status c new_status).
    destruct (with_status_same_but_status c new_status) as [Hst Hsame].
    unfold update_status. rewrite Hget. simpl.
    repeat split; try assumption; try apply Hsame.
    + apply (dict_get_set_same String.eqb String.eqb_eq).
    + exact (dict_keys_set_present String.eqb _ _ _ _ Hget).
    + intros other Hne.
      apply (dict_get_set_other String.eqb String.eqb_eq); assumption.
  - intros self Hget. unfold update_status. rewrite Hget. reflexivity.
  - intros app c Hin Hget.
    rewrite (update_context_status_accepted _ _ _ Hin), Hget.
    eexists. split; [reflexivity|].
    unfold update_status. rewrite Hget. simpl. repeat split.
Qed.

(** C6.  The status handler accepts exactly [draft], [in_review],
    [approved] and [published]: the answer is a 400 if and only if the new
    status is none of the four.  A rejected request leaves the whole
    application state as it was, so a stored context is fetched afterwards
    exactly as before; [archived] is rejected this way although
    [validate_status] of the model accepts it; and an accepted status for
    an identifier that is absent is answered with 404, the store again
    unchanged, and for one that is stored with success. *)
Theorem update_context_status_checks_status_first (cid new_status : string)
    (app : App) :
  ((exists detail,
       fst (update_context_status cid new_status app) = inl (HTTPException 400 detail))
   <-> ~ In new_status ["draft"; "in_review"; "approved"; "published"]) /\
  (~ In new_status ["draft"; "in_review"; "approved"; "published"] ->
     snd (update_context_status cid new_status app) = app /\
     forall other,
       get_context_handler other (snd (update_context_status cid new_status app))
       = get_context_handler other app) /\
  (validate_status "archived" = inr "archived" /\
   update_context_status cid "archived" app
   = (inl (HTTPException 400
        "Invalid status. Must be one of: ['draft', 'in_review', 'approved', 'published']"),
      app)) /\
  (In new_status ["draft"; "in_review"; "approved"; "published"] ->
     dict_get String.eqb (contexts (memory_store app)) cid = None ->
     update_context_status cid new_status app
     = (inl (HTTPException 404 "Context not found"), app)) /\
  (In new_status ["draft"; "in_review"; "approved"; "published"] ->
     forall c,
       dict_get String.eqb (contexts (memory_store app)) cid = Some c ->
       fst (update_context_status cid new_status app)
       = inr (mk_StatusResponse "success" cid new_status)).
Proof.
  change ["draft"; "in_review"; "approved"; "published"] with valid_statuses.
  split; [|split; [|split; [|split]]].
  - split.
    + intros [detail Hres] Hin.
      rewrite (update_context_status_accepted _ _ _ Hin) in Hres.
      destruct (dict_get String.eqb (contexts (memory_store app)) cid);
        simpl in Hres; discriminate.
    + intros Hnot. rewrite (update_context_status_rejected _ _ _ Hnot).
      eexists. reflexivity.
  - intros Hnot. rewrite (update_context_status_rejected _ _ _ Hnot).
    split; [reflexivity | intros other; reflexivity].
  - split; [reflexivity|].
    apply update_context_status_rejected.
    simpl. intros [H|[H|[H|[H|[]]]]]; discriminate.
  - intros Hin Hget.
    rewrite (update_context_status_accepted _ _ _ Hin), Hget. reflexivity.
  - intros Hin c Hget.
    rewrite (update_context_status_accepted _ _ _ Hin), Hget. reflexivity.
Qed.

End StoreClaims.

(* ================================================================= *)
(** * The three response strategies *)

Section AgentFacts.
Import Schemas ClaudeAgent Spec.
Context `{Runtime}.

(** The constructor accepts five strings and a dict of two strings. *)
Lemma AgentResponse_init_of_str (cid ss pt sl bt ip an : string) (t : datetime) :
  AgentResponse_init cid (PStr ss) (PStr pt)
    (PDict [("subject_line", PStr sl); ("body_text", PStr bt)]) (PStr ip) (PStr an) t
  = inr (mk_AgentResponse cid None ss pt (mk_EmailCopy sl bt) ip an t None).
Proof.
  unfold AgentResponse_init, validate_EmailCopy. simpl.
  rewrite !pydantic_str_of_str. reflexivity.
Qed.

(** A response the constructor returns carries the identifier and the time
    it was given. *)
Lemma AgentResponse_init_inr (cid : string) (ss pt ec ip an : pyval) (t : datetime)
    (r : AgentResponse) :
  AgentResponse_init cid ss pt ec ip an t = inr r ->
  r_campaign_id r = cid /\ generated_at r = t /\ r_context_id r = None.
Proof.
  unfold AgentResponse_init.
  destruct (pydantic_str ss), (pydantic_str pt), (validate_EmailCopy ec),
    (pydantic_str ip), (pydantic_str an); intros Hr; inversion Hr; simpl; auto.
Qed.

Lemma with_generated_at_same (r r' : AgentResponse) :
  with_generated_at r (generated_at r') = r' -> same_but_generated_at r r'.
Proof. intros <-. unfold same_but_generated_at. simpl. repeat split. Qed.

(** The fallback strategy, run: one reading of the clock, then a response. *)
Lemma fallback_run (brief : CampaignBrief) (error_message : string) (w : World) :
  exists r,
    _generate_fallback_response brief error_message w = (inr r, tick w) /\
    r_campaign_id r = campaign_id brief /\
    r_context_id r = None /\
    generated_at r = clock w (ticks w) /\
    agent_notes r = "FALLBACK RESPONSE: Agent error - " ++ error_message
                    ++ ". Manual review required." /\
    structurally_valid r = true.
Proof.
  unfold _generate_fallback_response, bind, now, lift.
  rewrite AgentResponse_init_of_str.
  eexists. split; [reflexivity|]. simpl. repeat split.
Qed.

(** The mock strategy, run: the response is the same for the same brief,
    up to the time read from the clock. *)
Lemma mock_run (brief : CampaignBrief) (w : World) :
  exists r,
    _generate_mock_response brief w = (inr r, tick w) /\
    r_campaign_id r = campaign_id brief /\
    generated_at r = clock w (ticks w) /\
    forall w2 r2,
      _generate_mock_response brief w2 = (inr r2, tick w2) ->
      with_generated_at r (generated_at r2) = r2.
Proof.
  unfold _generate_mock_response, bind, now, lift.
  rewrite AgentResponse_init_of_str.
  eexists. split; [reflexivity|]. simpl. repeat split.
  intros w2 r2. rewrite AgentResponse_init_of_str.
  intros Hr2. inversion Hr2. reflexivity.
Qed.

(** One [f.write] on a file whose content is known. *)
Lemma f_write_run (name text old acc : string) (w : World) :
  f_write name text (with_file w name (old ++ acc))
  = if Str.encodable text
    then (inr tt, with_file w name (old ++ acc ++ text))
    else (inl (UnicodeEncodeError text), with_file w name (old ++ acc)).
Proof.
  unfold f_write, with_file, dict_get_default. cbn [clock ticks files read_only].
  rewrite (dict_get_set_same String.eqb String.eqb_eq).
  rewrite (dict_set_set String.eqb String.eqb_eq), append_assoc.
  reflexivity.
Qed.

(** The [with] block of [_log_interaction] and its handler, run: nothing
    is raised, and the file gains the texts written before the first one
    that cannot be encoded; a file system that takes no writes is left as
    it is. *)
Lemma writes_run (name l1 l2 l3 l4 l5 l6 l7 l8 : string) (w : World) :
  try_except
    (open_append name ;;;
     f_write name l1 ;;; f_write name l2 ;;; f_write name l3 ;;;
     f_write name l4 ;;; f_write name l5 ;;; f_write name l6 ;;;
     f_write name l7 ;;; f_write name l8)%py
    (fun _ => ret tt) w
  = (inr tt,
     if read_only w then w
     else with_file w name
            (dict_get_default String.eqb (files w) name EmptyString
             ++ written [l1; l2; l3; l4; l5; l6; l7; l8])).
Proof.
  unfold try_except. unfold bind at 1. unfold open_append.
  destruct w as [c t f ro]. cbn [clock ticks files read_only].
  destruct ro; [reflexivity|].
  change (mk_World c t
            (dict_set String.eqb f name (dict_get_default String.eqb f name EmptyString))
            false)
    with (with_file (mk_World c t f false) name
            (dict_get_default String.eqb f name EmptyString)).
  set (old := dict_get_default String.eqb f name EmptyString).
  set (w := mk_World c t f false).
  rewrite <- (append_nil_r old) at 1.
  cbn [written].
  repeat (unfold bind at 1; rewrite f_write_run;
          destruct (Str.encodable _);
          [|unfold ret; rewrite ?append_assoc, ?append_nil_r; reflexivity]).
  rewrite f_write_run.
  destruct (Str.encodable _); unfold ret;
    rewrite ?append_assoc, ?append_nil_r; reflexivity.
Qed.

(** [_log_interaction], run: the clock is read twice, nothing is raised,
    and the log file of the month of the second reading gains what could
    be written of the record. *)
Lemma log_interaction_run (self : CampaignAgent) (brief : CampaignBrief)
    (r : AgentResponse) (w : World) :
  _log_interaction self brief r w
  = (inr tt,
     if read_only w then tick (tick w)
     else with_file (tick (tick w)) (log_file_of (clock w (S (ticks w))))
            (dict_get_default String.eqb (files w) (log_file_of (clock w (S (ticks w))))
               EmptyString
             ++ written (log_lines self brief (clock w (ticks w))))).
Proof.
  unfold _log_interaction. unfold bind at 1. unfold now at 1.
  unfold bind at 1. unfold now at 1.
  cbn [tick clock ticks].
  exact (writes_run _ _ _ _ _ _ _ _ _ (tick (tick w))).
Qed.

(** Writing the audit record never raises, and sets the clock two readings
    on. *)
Lemma log_interaction_returns (self : CampaignAgent) (brief : CampaignBrief)
    (r : AgentResponse) (w : World) :
  exists w',
    _log_interaction self brief r w = (inr tt, w') /\
    clock w' = clock w /\ ticks w' = S (S (ticks w)).
Proof.
  rewrite log_interaction_run. eexists. split; [reflexivity|].
  destruct (read_only w); split; reflexivity.
Qed.

(** The loop over the required fields, on an object: it stops at the first
    key that is missing. *)
Lemma check_required_dict (d : dict string pyval) (fields : list string) :
  check_required (PDict d) fields =
  match find (fun field => negb (dict_mem String.eqb d field)) fields with
  | Some field => inl (ValueError ("Missing required field: " ++ field))
  | None => inr tt
  end.
Proof.
  induction fields as [|field rest IH]; simpl; [reflexivity|].
  destruct (dict_mem String.eqb d field); simpl; [exact IH | reflexivity].
Qed.

(** Whatever the data, an exception of the loop is one of the two kinds. *)
Lemma check_required_inl (v : pyval) (fields : list string) (e : exn) :
  check_required v fields = inl e ->
  (exists field, In field fields /\ e = ValueError ("Missing required field: " ++ field))
  \/ exists msg, e = TypeError msg.
Proof.
  induction fields as [|field rest IH]; simpl; [discriminate|].
  destruct (py_in field v) as [e'|[|]] eqn:Hin.
  - intros He. inversion He. subst e'.
    destruct v; simpl in Hin; try discriminate; inversion Hin; right; eexists; reflexivity.
  - intros He. destruct (IH He) as [[f [Hf Hef]] | Hty].
    + left. exists f. split; [right; exact Hf | exact Hef].
    + right. exact Hty.
  - intros He. inversion He. left. exists field. split; [left; reflexivity | reflexivity].
Qed.

(** A value that is not an object has no item under a [str] key. *)
Lemma py_getitem_not_object (v : pyval) (key : string) :
  (forall d, v <> PDict d) -> exists msg, py_getitem v key = inl (TypeError msg).
Proof.
  intros Hv. destruct v; simpl; try (eexists; reflexivity).
  exfalso. exact (Hv d eq_refl).
Qed.

(** Parsing, when it returns, returns a response for the brief. *)
Lemma parse_returns_brief_id (raw : string) (brief : CampaignBrief) (w w' : World)
    (r : AgentResponse) :
  _parse_claude_response raw brief w = (inr r, w') ->
  r_campaign_id r = campaign_id brief.
Proof.
  unfold _parse_claude_response.
  destruct (json_loads (str_strip raw)) as [e0|v]; [destruct e0; discriminate|].
  unfold bind, lift, now.
  destruct (check_required v required_fields); [discriminate|].
  destruct (py_getitem v "strategy_summary"); [discriminate|].
  destruct (py_getitem v "post_text"); [discriminate|].
  destruct (py_getitem v "email_copy"); [discriminate|].
  destruct (py_getitem v "image_prompt"); [discriminate|].
  destruct (py_getitem v "agent_notes"); [discriminate|].
  destruct (AgentResponse_init _ _ _ _ _ _ _) as [e|r'] eqn:Hinit; [discriminate|].
  intros Hr. inversion Hr. subst r'.
  apply (AgentResponse_init_inr _ _ _ _ _ _ _ _ Hinit).
Qed.

(** An exception of the decoder, as the parser passes it on: a
    [JSONDecodeError] is replaced, any other is raised again. *)
Lemma parse_decoder_error (raw : string) (brief : CampaignBrief) (w : World) (e0 : exn) :
  json_loads (str_strip raw) = inl e0 ->
  _parse_claude_response raw brief w
  = (inl match e0 with
         | JSONDecodeError _ => ValueError "Claude response was not valid JSON"
         | _ => e0
         end, w).
Proof.
  unfold _parse_claude_response. intros ->. destruct e0; reflexivity.
Qed.

(** Parsing a text that is not the object asked for raises before the
    clock is read, and the exception is told by the way the text fails. *)
Lemma parse_raises (raw : string) (brief : CampaignBrief) (w : World) :
  undecodable raw \/ (exists e0, breaks_decoder raw e0) \/ lacks_a_key raw
  \/ not_object raw ->
  exists e,
    _parse_claude_response raw brief w = (inl e, w) /\
    (undecodable raw -> e = ValueError "Claude response was not valid JSON") /\
    (forall e0, breaks_decoder raw e0 -> e = e0) /\
    (forall d, json_loads (str_strip raw) = inr (PDict d) ->
       exists field, first_missing d = Some field /\
                     e = ValueError ("Missing required field: " ++ field)) /\
    (not_object raw ->
       (exists field, In field required_fields /\
                      e = ValueError ("Missing required field: " ++ field))
       \/ exists msg, e = TypeError msg) /\
    ((forall e0, ~ breaks_decoder raw e0) -> parse_error e).
Proof.
  intros [[msg Hmsg] | [[e0 [He0 Hne]] | [[d [field [Hd [Hin Hmem]]]] | [v [Hv Hnot]]]]].
  - exists (ValueError "Claude response was not valid JSON").
    split; [exact (parse_decoder_error raw brief w _ Hmsg)|].
    split; [reflexivity|].
    split; [intros e1 [He1 Hne1]; rewrite Hmsg in He1; inversion He1; subst e1;
            exfalso; exact (Hne1 msg eq_refl)|].
    split; [intros d Hd; rewrite Hmsg in Hd; discriminate|].
    split; [intros [v [Hv _]]; rewrite Hmsg in Hv; discriminate|].
    intros _. constructor.
  - exists e0. split.
    + rewrite (parse_decoder_error raw brief w e0 He0).
      destruct e0; try reflexivity. exfalso. exact (Hne _ eq_refl).
    + split; [intros [msg Hmsg]; rewrite He0 in Hmsg; inversion Hmsg; subst e0;
              exfalso; exact (Hne msg eq_refl)|].
      split; [intros e1 [He1 _]; rewrite He0 in He1; inversion He1; reflexivity|].
      split; [intros d Hd; rewrite He0 in Hd; discriminate|].
      split; [intros [v [Hv _]]; rewrite He0 in Hv; discriminate|].
      intros Hno. exfalso. exact (Hno e0 (conj He0 Hne)).
  - destruct (find (fun f => negb (dict_mem String.eqb d f)) required_fields)
      as [f|] eqn:Hfind.
    + exists (ValueError ("Missing required field: " ++ f)).
      split; [unfold _parse_claude_response; rewrite Hd; unfold bind, lift;
              rewrite check_required_dict, Hfind; reflexivity|].
      split; [intros [msg Hmsg]; rewrite Hd in Hmsg; discriminate|].
      split; [intros e1 [He1 _]; rewrite Hd in He1; discriminate|].
      split; [intros d' Hd'; rewrite Hd in Hd'; inversion Hd'; subst d';
              exists f; split; [exact Hfind | reflexivity]|].
      split; [intros [v [Hv Hnot]]; rewrite Hd in Hv; inversion Hv; subst v;
              exfalso; exact (Hnot d eq_refl)|].
      intros _. constructor. exact (proj1 (find_some _ _ Hfind)).
    + exfalso. pose proof (find_none _ _ Hfind field Hin) as Hf.
      cbv beta in Hf. rewrite Hmem in Hf. discriminate.
  - assert (Hkind : forall e,
              (exists f, In f required_fields /\
                         e = ValueError ("Missing required field: " ++ f))
              \/ (exists msg, e = TypeError msg) ->
              (undecodable raw -> e = ValueError "Claude response was not valid JSON") /\
              (forall e0, breaks_decoder raw e0 -> e = e0) /\
              (forall d, json_loads (str_strip raw) = inr (PDict d) ->
                 exists field, first_missing d = Some field /\
                               e = ValueError ("Missing required field: " ++ field)) /\
              (not_object raw ->
                 (exists field, In field required_fields /\
                                e = ValueError ("Missing required field: " ++ field))
                 \/ exists msg, e = TypeError msg) /\
              ((forall e0, ~ breaks_decoder raw e0) -> parse_error e)).
    { intros e He.
      split; [intros [msg Hmsg]; rewrite Hv in Hmsg; discriminate|].
      split; [intros e1 [He1 _]; rewrite Hv in He1; discriminate|].
      split; [intros d Hd; rewrite Hv in Hd; inversion Hd; subst v;
              exfalso; exact (Hnot d eq_refl)|].
      split; [intros _; exact He|].
      intros _. destruct He as [[f [Hf ->]] | [msg ->]]; constructor; exact Hf. }
    destruct (check_required v required_fields) as [e|[]] eqn:Hcheck.
    + exists e.
      split; [unfold _parse_claude_response; rewrite Hv; unfold bind, lift;
              rewrite Hcheck; reflexivity|].
      apply Hkind. exact (check_required_inl _ _ _ Hcheck).
    + destruct (py_getitem_not_object v "strategy_summary" Hnot) as [msg Hget].
      exists (TypeError msg).
      split; [unfold _parse_claude_response; rewrite Hv; unfold bind, lift;
              rewrite Hcheck, Hget; reflexivity|].
      apply Hkind. right. exists msg. reflexivity.
Qed.

(** The body of [process_campaign_brief] either returns a response for the
    brief, or raises and the fallback answers. *)
Lemma process_campaign_brief_cases (self : CampaignAgent) (brief : CampaignBrief)
    (w : World) :
  exists r w',
    process_campaign_brief self brief w = (inr r, w') /\
    r_campaign_id r = campaign_id brief.
Proof.
  unfold process_campaign_brief, try_except.
  destruct (client self) as [c|].
  - unfold bind at 1.
    destruct (_call_claude_api self c (_build_user_message brief) w) as [[e|raw] w1].
    + destruct (fallback_run brief (str_of_exn e) w1) as [r [Hrun [Hid _]]].
      rewrite Hrun. eauto.
    + unfold bind at 1.
      destruct (_parse_claude_response raw brief w1) as [[e|r] w2] eqn:Hparse.
      * destruct (fallback_run brief (str_of_exn e) w2) as [r [Hrun [Hid _]]].
        rewrite Hrun. eauto.
      * unfold bind.
        destruct (log_interaction_returns self brief r w2) as [w3 [Hlog _]].
        rewrite Hlog. unfold ret. exists r, w3. split; [reflexivity|].
        exact (parse_returns_brief_id _ _ _ _ _ Hparse).
  - destruct (mock_run brief w) as [r [Hrun [Hid _]]].
    rewrite Hrun. eauto.
Qed.

End AgentFacts.

Section AgentClaims.
Import Schemas ClaudeAgent Spec.
Context `{Runtime}.

(** C1.  For every brief, every agent (with or without a client, whatever
    the client answers) and every state of the world,
    [process_campaign_brief] returns a response, and the response carries
    the [campaign_id] of the brief.  The same holds for each strategy on
    its own: a response that Parse returns, the response Mock returns and
    the response Fallback returns all carry the brief's identifier. *)
Theorem process_campaign_brief_keeps_campaign_id (self : CampaignAgent)
    (brief : CampaignBrief) (w : World) :
  (exists r w',
      process_campaign_brief self brief w = (inr r, w') /\
      r_campaign_id r = campaign_id brief) /\
  (forall raw w' r,
      _parse_claude_response raw brief w = (inr r, w') ->
      r_campaign_id r = campaign_id brief) /\
  (exists r,
      _generate_mock_response brief w = (inr r, tick w) /\
      r_campaign_id r = campaign_id brief) /\
  (forall error_message, exists r,
      _generate_fallback_response brief error_message w = (inr r, tick w) /\
      r_campaign_id r = campaign_id brief).
Proof.
  split; [apply process_campaign_brief_cases|].
  split; [intros raw w' r; apply parse_returns_brief_id|].
  split.
  - destruct (mock_run brief w) as [r [Hrun [Hid _]]]. eauto.
  - intros msg. destruct (fallback_run brief msg w) as [r [Hrun [Hid _]]]. eauto.
Qed.

(** C2, as the code has it.  [_parse_claude_response] raises, before it
    reads the clock, on every reply that the decoder refuses as JSON, that
    makes the decoder raise another exception, that decodes to an object
    without one of the five keys, or that decodes to a value that is no
    object.  The exception is, in this order: a plain [ValueError] with
    the fixed text [Claude response was not valid JSON]; the decoder's own
    exception, as it is; a plain [ValueError] whose only argument names
    the first missing key; such a [ValueError] or a [TypeError].  There is
    no error type of its own for invalid output.  [process_campaign_brief]
    turns the exception into the fallback response, whose notes quote
    [str] of it, and returns that: no exception leaves the agent. *)
Theorem invalid_output_becomes_fallback (self : CampaignAgent) (c : Anthropic)
    (brief : CampaignBrief) (raw : string) (w : World) :
  client self = Some c ->
  messages_create c (request_for self brief) = inr raw ->
  undecodable raw \/ (exists e0, breaks_decoder raw e0) \/ lacks_a_key raw
  \/ not_object raw ->
  exists e r,
    _parse_claude_response raw brief w = (inl e, w) /\
    (undecodable raw -> e = ValueError "Claude response was not valid JSON") /\
    (forall e0, breaks_decoder raw e0 -> e = e0) /\
    (forall d, json_loads (str_strip raw) = inr (PDict d) ->
       exists field, first_missing d = Some field /\
                     e = ValueError ("Missing required field: " ++ field)) /\
    (not_object raw ->
       (exists field, In field required_fields /\
                      e = ValueError ("Missing required field: " ++ field))
       \/ exists msg, e = TypeError msg) /\
    ((forall e0, ~ breaks_decoder raw e0) -> parse_error e) /\
    process_campaign_brief self brief w = (inr r, tick w) /\
    r_campaign_id r = campaign_id brief /\
    agent_notes r = fallback_note e /\
    structurally_valid r = true.
Proof.
  intros Hclient Hcall Hbad.
  destruct (parse_raises raw brief w Hbad)
    as [e [Hparse [Hjson [Hother [Hkey [Hvalue Hkind]]]]]].
  destruct (fallback_run brief (str_of_exn e) w) as [r [Hrun [Hid [_ [_ [Hnotes Hvalid]]]]]].
  exists e, r. repeat (split; [assumption|]).
  split; [|repeat split; assumption].
  unfold process_campaign_brief, try_except. rewrite Hclient.
  unfold bind at 1. unfold _call_claude_api, lift.
  fold (request_for self brief). rewrite Hcall.
  unfold bind at 1. rewrite Hparse. exact Hrun.
Qed.

(** C3.  For every brief, every error message and every state of the
    world, the fallback strategy returns (it does not raise) a response
    that is structurally valid, carries the brief's identifier, and whose
    notes contain the error message as it is and the words
    [Manual review required]. *)
Theorem fallback_never_raises (brief : CampaignBrief) (error_message : string)
    (w : World) :
  exists r,
    _generate_fallback_response brief error_message w = (inr r, tick w) /\
    structurally_valid r = true /\
    r_campaign_id r = campaign_id brief /\
    Str.occurs_in error_message (agent_notes r) /\
    Str.occurs_in "Manual review required" (agent_notes r).
Proof.
  destruct (fallback_run brief error_message w)
    as [r [Hrun [Hid [_ [_ [Hnotes Hvalid]]]]]].
  exists r. repeat (split; [assumption|]). rewrite Hnotes. split.
  - apply occurs_in_middle.
  - exists ("FALLBACK RESPONSE: Agent error - " ++ error_message ++ ". "), ".".
    simpl. rewrite append_assoc. reflexivity.
Qed.

(** C4.  Without a client the mock strategy answers, and it is
    deterministic: two runs of [process_campaign_brief] on the same brief,
    in any two states of the world, both return, and the two responses
    agree on every field but [generated_at], which is in each run the time
    the clock showed. *)
Theorem mock_is_deterministic (self : CampaignAgent) (brief : CampaignBrief)
    (w1 w2 : World) :
  client self = None ->
  exists r1 r2,
    process_campaign_brief self brief w1 = (inr r1, tick w1) /\
    process_campaign_brief self brief w2 = (inr r2, tick w2) /\
    same_but_generated_at r1 r2 /\
    generated_at r1 = clock w1 (ticks w1) /\
    generated_at r2 = clock w2 (ticks w2).
Proof.
  intros Hclient.
  destruct (mock_run brief w1) as [r1 [Hrun1 [_ [Ht1 Hsame]]]].
  destruct (mock_run brief w2) as [r2 [Hrun2 [_ [Ht2 _]]]].
  exists r1, r2.
  unfold process_campaign_brief, try_except. rewrite Hclient, Hrun1, Hrun2.
  repeat (split; [reflexivity || assumption|]).
  split; [|split; assumption].
  apply with_generated_at_same, (Hsame w2 r2 Hrun2).
Qed.

End AgentClaims.

Section AgentExamples.
Import Schemas ClaudeAgent Spec.

(** C2, as the spec words it, fails.  The reply [partial_reply_json] is a
    JSON object without [email_copy].  What Parse raises for it is a plain
    [ValueError], the type the decoder and [datetime.replace] raise too,
    and its only argument is the message that names the key: the raw text
    is no part of it, and another reply without the key gets the very same
    exception. *)
Lemma parse_error_does_not_carry_raw_text :
  @lacks_a_key Sample.runtime Sample.partial_reply_json /\
  exists e,
    @_parse_claude_response Sample.runtime Sample.partial_reply_json Sample.brief
      (Sample.world_at Sample.jan10)
    = (inl e, Sample.world_at Sample.jan10) /\
    e = ValueError "Missing required field: email_copy" /\
    Str.contains Sample.partial_reply_json (@str_of_exn Sample.runtime e) = false /\
    Sample.other_partial_reply_json <> Sample.partial_reply_json /\
    @_parse_claude_response Sample.runtime Sample.other_partial_reply_json Sample.brief
      (Sample.world_at Sample.jan10)
    = (inl e, Sample.world_at Sample.jan10).
Proof.
  split.
  - exists [ ("strategy_summary", PStr "s"); ("post_text", PStr "p") ], "email_copy".
    split; [reflexivity|]. split; [simpl; auto | reflexivity].
  - eexists. split; [reflexivity|]. split; [reflexivity|].
    split; [reflexivity|]. split; [discriminate | reflexivity].
Qed.

Lemma invalid_output_becomes_fallback_witness :
  @undecodable Sample.runtime "oops" /\
  exists e r,
    @process_campaign_brief Sample.runtime (Sample.agent_with (Some Sample.chatty))
      Sample.brief (Sample.world_at Sample.jan10)
    = (inr r, tick (Sample.world_at Sample.jan10)) /\
    agent_notes r = @fallback_note Sample.runtime e /\
    e = ValueError "Claude response was not valid JSON".
Proof.
  assert (Hbad : @undecodable Sample.runtime "oops") by (eexists; reflexivity).
  split; [exact Hbad|].
  destruct (@invalid_output_becomes_fallback Sample.runtime
              (Sample.agent_with (Some Sample.chatty)) Sample.chatty Sample.brief
              "oops" (Sample.world_at Sample.jan10) eq_refl eq_refl (or_introl Hbad))
    as [e [r [_ [He [_ [_ [_ [_ [Hrun [_ [Hnotes _]]]]]]]]]]].
  exists e, r. split; [exact Hrun|]. split; [exact Hnotes | exact (He Hbad)].
Defined.

(** Brackets nested too deep: the decoder's [RecursionError] reaches the
    fallback as it is. *)
Example deep_nesting_error_is_raised_again :
  @breaks_decoder Sample.runtime Sample.deep_json
    (RecursionError
       "maximum recursion depth exceeded while decoding a JSON array from a unicode string")
  /\
  exists r,
    @process_campaign_brief Sample.runtime (Sample.agent_with (Some Sample.nesting))
      Sample.brief (Sample.world_at Sample.jan10)
    = (inr r, tick (Sample.world_at Sample.jan10)) /\
    agent_notes r = "FALLBACK RESPONSE: Agent error - maximum recursion depth exceeded while decoding a JSON array from a unicode string. Manual review required.".
Proof.
  assert (Hloads : Sample.loads (Sample.strip Sample.deep_json)
                   = inl (RecursionError
       "maximum recursion depth exceeded while decoding a JSON array from a unicode string"))
    by (vm_compute; reflexivity).
  split.
  - split; [exact Hloads | discriminate].
  - unfold process_campaign_brief, try_except, Sample.agent_with, client, bind at 1.
    unfold _call_claude_api, lift, Sample.nesting, messages_create.
    unfold bind at 1.
    rewrite (@parse_decoder_error Sample.runtime _ _ _ _ Hloads).
    eexists. split; reflexivity.
Qed.

(** An object without [email_copy]: the error names the first key that is
    missing. *)
Example forgetful_model_named_in_notes :
  exists r,
    @process_campaign_brief Sample.runtime (Sample.agent_with (Some Sample.forgetful))
      Sample.brief (Sample.world_at Sample.jan10)
    = (inr r, tick (Sample.world_at Sample.jan10)) /\
    agent_notes r = "FALLBACK RESPONSE: Agent error - Missing required field: email_copy. Manual review required.".
Proof. eexists. split; reflexivity. Qed.

Lemma mock_is_deterministic_witness :
  exists r1 r2,
    @process_campaign_brief Sample.runtime (Sample.agent_with None) Sample.brief
      (Sample.world_at Sample.jan10) = (inr r1, tick (Sample.world_at Sample.jan10)) /\
    @process_campaign_brief Sample.runtime (Sample.agent_with None) Sample.brief
      (Sample.world_at Sample.jan31) = (inr r2, tick (Sample.world_at Sample.jan31)) /\
    same_but_generated_at r1 r2 /\
    generated_at r1 = Sample.jan10 /\ generated_at r2 = Sample.jan31.
Proof.
  exact (@mock_is_deterministic Sample.runtime (Sample.agent_with None) Sample.brief
           (Sample.world_at Sample.jan10) (Sample.world_at Sample.jan31) eq_refl).
Defined.

End AgentExamples.

Section StoreExamples.
Import Schemas MainApp Spec.

Lemma update_status_overwrites_status_only_witness :
  exists self' c',
    update_status "c" "approved" (mk_AgentMemoryStore (Sample.contexts_upto 1))
    = (inr true, self') /\
    dict_get String.eqb (contexts self') "c" = Some c' /\
    status c' = "approved" /\
    updated_at c' = Sample.jan10.
Proof.
  destruct (update_status_overwrites_status_only "c" "approved") as [Hpresent _].
  destruct (Hpresent (mk_AgentMemoryStore (Sample.contexts_upto 1))
              (Sample.context "c") eq_refl)
    as [self' [c' [Hrun [Hget [Hstatus [Hsame _]]]]]].
  exists self', c'. repeat (split; [assumption|]).
  destruct Hsame as [_ [_ [_ [_ [_ [_ [_ [Hupdated _]]]]]]]].
  rewrite Hupdated. reflexivity.
Defined.

Lemma update_context_status_checks_status_first_witness :
  snd (update_context_status "c" "archived" (Sample.app_with 1)) = Sample.app_with 1 /\
  get_context_handler "c" (snd (update_context_status "c" "archived" (Sample.app_with 1)))
  = (inr (Sample.context "c"), Sample.app_with 1) /\
  update_context_status "nope" "approved" (Sample.app_with 1)
  = (inl (HTTPException 404 "Context not found"), Sample.app_with 1).
Proof.
  destruct (update_context_status_checks_status_first "c" "archived" (Sample.app_with 1))
    as [_ [Hrejected _]].
  destruct (update_context_status_checks_status_first "nope" "approved" (Sample.app_with 1))
    as [_ [_ [_ [Habsent _]]]].
  assert (Hnot : ~ In "archived" ["draft"; "in_review"; "approved"; "published"])
    by (simpl; intros [Heq|[Heq|[Heq|[Heq|[]]]]]; discriminate).
  destruct (Hrejected Hnot) as [Hsame Hget].
  split; [exact Hsame|]. split; [rewrite Hget; reflexivity|].
  apply Habsent; [simpl; auto | reflexivity].
Defined.

(** A limit of 2 on a store of 5 contexts: the total reported is 2. *)
Example list_two_of_five :
  fst (list_contexts_handler 2 (Sample.app_with 5))
  = inr (mk_ListResponse 2
           [summary_of (Sample.context "cxxxx"); summary_of (Sample.context "cxxx")]).
Proof. reflexivity. Qed.

End StoreExamples.

(* ================================================================= *)
(** * The service layer *)

Section ServiceClaims.
Import Schemas ClaudeAgent MainApp Spec.
Context `{Runtime}.

(** The handler of a brief never answers with its 500: the agent always
    returns a response, the context built from it is stored as a draft
    under the identifier the response is given, and a fetch of that
    identifier right afterwards returns this context. *)
Theorem process_campaign_stores_a_draft (brief : CampaignBrief) (app : App) :
  exists response cid context app',
    process_campaign brief app = (inr response, app') /\
    r_campaign_id response = campaign_id brief /\
    r_context_id response = Some cid /\
    get_context_handler cid app' = (inr context, app') /\
    context_id context = cid /\
    status context = "draft" /\
    input_data context = CampaignBrief_dict brief /\
    reasoning_log context = [agent_notes response].
Proof.
  destruct (process_campaign_brief_cases (agent app) brief (world app))
    as [r [w' [Hrun Hid]]].
  unfold process_campaign, try_except, bind, the_agent, on_world.
  rewrite Hrun. cbn -[CampaignBrief_dict AgentResponse_dict Datetime.strftime_Ymd_HMS
                      Datetime.isoformat String.append].
  do 4 eexists. split; [reflexivity|].
  split; [exact Hid|]. split; [reflexivity|].
  unfold get_context_handler, bind, on_store, get_context.
  cbn -[CampaignBrief_dict AgentResponse_dict Datetime.strftime_Ymd_HMS
        Datetime.isoformat String.append dict_get dict_set].
  rewrite (dict_get_set_same String.eqb String.eqb_eq).
  split; [reflexivity|]. repeat split.
Qed.

End ServiceClaims.

(* ================================================================= *)
(** * The deadline of a mock brief *)

Section DateFacts.
Import Datetime.

Lemma with_day_same (t : datetime) : with_day t (day t) = t.
Proof. destruct t; reflexivity. Qed.

(** Within the month, calendar addition only moves the day. *)
Lemma calendar_add_days_within_month (n : nat) (t : datetime) :
  day t + Z.of_nat n <= days_in_month (year t) (month t) ->
  calendar_add_days n t = with_day t (day t + Z.of_nat n).
Proof.
  revert t. induction n as [|n IH]; intros t Hfit.
  - simpl. rewrite Z.add_0_r, with_day_same. reflexivity.
  - cbn [calendar_add_days]. unfold next_day.
    destruct (day t <? days_in_month (year t) (month t)) eqn:Hlt.
    + rewrite IH; simpl; [|lia].
      unfold with_day. simpl. f_equal. lia.
    + apply Z.ltb_ge in Hlt. lia.
Qed.

(** Where the month has the room, the replacement of the day is the
    calendar's answer. *)
Lemma replace_day_is_calendar_addition (t : datetime) (n : nat) :
  valid t ->
  day t + Z.of_nat n <= days_in_month (year t) (month t) ->
  replace_day t (day t + Z.of_nat n) = inr (calendar_add_days n t).
Proof.
  intros [_ [_ [[Hday _] _]]] Hfit. unfold replace_day.
  rewrite calendar_add_days_within_month by exact Hfit.
  destruct (andb_true_iff (1 <=? day t + Z.of_nat n)
              (day t + Z.of_nat n <=? days_in_month (year t) (month t))) as [_ Hb].
  rewrite Hb; [reflexivity|]. split; apply Z.leb_le; lia.
Qed.

(** Where it has not, the replacement raises. *)
Lemma replace_day_out_of_range (t : datetime) (d : Z) :
  days_in_month (year t) (month t) < d ->
  replace_day t d = inl (ValueError "day is out of range for month").
Proof.
  intros Hover. unfold replace_day.
  destruct (d <=? days_in_month (year t) (month t)) eqn:Hle.
  - apply Z.leb_le in Hle. lia.
  - rewrite andb_false_r. reflexivity.
Qed.

End DateFacts.

Section RaisesFacts.
Import Spec.
Context {S : Type}.
Variable P : S -> Prop.

Lemma raises_lift_inl {A} (e : exn) : raises_from P (@lift S A (inl e)).
Proof. intros s _. exists e, s. reflexivity. Qed.

Lemma raises_bind_first {A B} (m : M S A) (k : A -> M S B) :
  raises_from P m -> raises_from P (bind m k).
Proof.
  intros Hm s Hs. destruct (Hm s Hs) as [e [s' Hrun]].
  exists e, s'. unfold bind. rewrite Hrun. reflexivity.
Qed.

Lemma raises_bind_later {A B} (m : M S A) (k : A -> M S B) :
  keeps P m -> (forall x, raises_from P (k x)) -> raises_from P (bind m k).
Proof.
  intros Hm Hk s Hs. unfold bind. specialize (Hm s Hs).
  destruct (m s) as [[e|x] s']; simpl in Hm.
  - exists e, s'. reflexivity.
  - exact (Hk x s' Hm).
Qed.

Lemma keeps_lift {A} (r : exn + A) : keeps P (@lift S A r).
Proof. intros s Hs. exact Hs. Qed.

Lemma keeps_ret {A} (a : A) : keeps P (@ret S A a).
Proof. intros s Hs. exact Hs. Qed.

Lemma keeps_bind {A B} (m : M S A) (k : A -> M S B) :
  keeps P m -> (forall x, keeps P (k x)) -> keeps P (bind m k).
Proof.
  intros Hm Hk s Hs. unfold bind. specialize (Hm s Hs).
  destruct (m s) as [[e|x] s']; simpl in *; [exact Hm | exact (Hk x s' Hm)].
Qed.

(** A handler that raises turns a body that raises into its own error. *)
Lemma try_except_of_raises {A} (body : M S A) (handler : exn -> exn) (s : S) :
  raises_from P body -> P s ->
  exists e s', try_except body (fun e => raise (handler e)) s = (inl (handler e), s').
Proof.
  intros Hbody Hs. destruct (Hbody s Hs) as [e [s' Hrun]].
  exists e, s'. unfold try_except. rewrite Hrun. reflexivity.
Qed.

End RaisesFacts.

Section MockBriefClaims.
Import Schemas ClaudeAgent MainApp Spec.
Context `{Runtime}.

Lemma keeps_clock_read_file (t : datetime) (name : string) :
  keeps (clock_stands_at t) (on_world (read_file name)).
Proof.
  intros app Happ. unfold on_world, read_file.
  destruct (dict_get String.eqb (files (world app)) name); exact Happ.
Qed.

(** Under a clock that stands at [t], reading it gives [t]. *)
Lemma raises_bind_now {A} (t : datetime) (k : datetime -> M App A) :
  raises_from (clock_stands_at t) (k t) ->
  raises_from (clock_stands_at t) (bind (on_world now) k).
Proof.
  intros Hk app Happ. unfold bind, on_world, now. simpl.
  rewrite (Happ (ticks (world app))). apply Hk. exact Happ.
Qed.

(** One step of the handler that keeps the clock and is passed by. *)
Ltac pass_step :=
  apply raises_bind_later;
  [ first [ apply keeps_lift | apply keeps_ret | apply keeps_clock_read_file ]
  | intros ? ].

(** C5, where it fails.  Whatever the request and [mock_data.json], when
    the clock stands at a time [t] whose day plus 14 is past the end of
    the month of [t], the replacement of the day raises and the handler
    does not return a brief: it answers with a 500.  (Calendar addition
    of 14 days to such a [t] is a day of the following month.) *)
Theorem create_mock_brief_fails_late_in_month (request : MockBriefRequest)
    (app : App) (t : datetime) :
  clock_stands_at t app ->
  Datetime.days_in_month (year t) (month t) < day t + 14 ->
  Datetime.replace_day t (day t + 14)
  = inl (ValueError "day is out of range for month") /\
  exists e app',
    create_mock_brief request app
    = (inl (HTTPException 500 ("Mock brief creation failed: " ++ str_of_exn e)), app').
Proof.
  intros Hclock Hover.
  pose proof (replace_day_out_of_range t (day t + 14) Hover) as Hreplace.
  split; [exact Hreplace|].
  unfold create_mock_brief.
  apply (try_except_of_raises (clock_stands_at t)); [|exact Hclock].
  do 4 pass_step.
  apply raises_bind_later.
  { destruct (mb_company_name request) as [[|c rest]|];
      try apply keeps_ret.
    apply keeps_bind; [apply keeps_lift | intros ?; apply keeps_lift]. }
  intros template.
  apply raises_bind_now. pass_step.
  apply raises_bind_now. pass_step.
  apply raises_bind_now. apply raises_bind_now.
  apply raises_bind_first. rewrite Hreplace. apply raises_lift_inl.
Qed.

End MockBriefClaims.

Section DeadlineWithinMonth.
Import Datetime.

(** Where the day plus 14 is still a day of the month, the deadline the
    handler computes is the calendar's: the replacement of the day returns
    the date 14 days later. *)
Theorem deadline_within_month_is_calendar_addition (t : datetime) :
  valid t ->
  day t + 14 <= days_in_month (year t) (month t) ->
  replace_day t (day t + 14) = inr (calendar_add_days 14 t).
Proof. intros Hvalid Hfit. exact (replace_day_is_calendar_addition t 14 Hvalid Hfit). Qed.

Lemma deadline_within_month_is_calendar_addition_witness :
  replace_day Sample.jan10 (day Sample.jan10 + 14)
  = inr (mk_datetime 2024 1 24 12 0 0 0).
Proof.
  rewrite (deadline_within_month_is_calendar_addition Sample.jan10);
    [reflexivity | vm_compute; intuition discriminate | vm_compute; discriminate].
Defined.

End DeadlineWithinMonth.

Section MockBriefExamples.
Import Schemas ClaudeAgent MainApp Spec.

Lemma create_mock_brief_fails_late_in_month_witness :
  Datetime.replace_day Sample.jan31 (day Sample.jan31 + 14)
  = inl (ValueError "day is out of range for month") /\
  exists e app',
    @create_mock_brief Sample.runtime Sample.request Sample.app_on_jan31
    = (inl (HTTPException 500
              ("Mock brief creation failed: " ++ @str_of_exn Sample.runtime e)), app').
Proof.
  exact (@create_mock_brief_fails_late_in_month Sample.runtime Sample.request Sample.app_on_jan31
           Sample.jan31 (fun n => eq_refl) eq_refl).
Defined.

(** The request of 31 January 2024, run: the answer is the 500, where the
    calendar says 14 February. *)
Example create_mock_brief_on_31_january :
  fst (@create_mock_brief Sample.runtime Sample.request Sample.app_on_jan31)
  = inl (HTTPException 500 "Mock brief creation failed: day is out of range for month") /\
  Datetime.calendar_add_days 14 Sample.jan31 = mk_datetime 2024 2 14 12 0 0 0.
Proof. split; reflexivity. Qed.

(** The same request on 10 January: the deadline is the 24th. *)
Example create_mock_brief_on_10_january :
  exists brief app',
    @create_mock_brief Sample.runtime Sample.request (Sample.app_with 0)
    = (inr (mk_MockBriefResponse "success" (PDict brief)), app') /\
    dict_get String.eqb brief "deadline" = Some (PStr "2024-01-24T12:00:00") /\
    Datetime.isoformat (Datetime.calendar_add_days 14 Sample.jan10) = "2024-01-24T12:00:00".
Proof. eexists. eexists. split; [reflexivity|]. split; reflexivity. Qed.

End MockBriefExamples.

(* ================================================================= *)
(** * Listing and statistics *)

Section ListingFacts.
Import Schemas ClaudeAgent MainApp Spec.

Lemma length_contexts (self : AgentMemoryStore) :
  length (dict_values (contexts self)) = length (contexts self).
Proof. apply length_map. Qed.

(** The list handler, run: the store is read and left alone. *)
Lemma list_contexts_handler_run (limit : Z) (app : App) :
  list_contexts_handler limit app
  = (inr (mk_ListResponse
            (Z.of_nat (length (map summary_of
               (firstn (Z.to_nat limit) (dict_values (contexts (memory_store app)))))))
            (map summary_of
               (firstn (Z.to_nat limit) (dict_values (contexts (memory_store app)))))),
     app).
Proof.
  unfold list_contexts_handler, bind, on_store, list_contexts, ret. simpl.
  rewrite app_eta. reflexivity.
Qed.

Lemma Forall_firstn {A} (Q : A -> Prop) (n : nat) (l : list A) :
  Forall Q l -> Forall Q (firstn n l).
Proof.
  intros Hl. revert n.
  induction Hl as [|x l Hx Hl IH]; intros [|n]; simpl; constructor; auto.
Qed.

Section Counting.
Context `{Runtime}.

(** The loop of the statistics counts every context once in each
    breakdown, provided every campaign type can be a key. *)
Lemma count_contexts_totals (contexts : list MemoryContext) :
  Forall (fun c => hashable (campaign_type_of c) = true) contexts ->
  forall status_counts campaign_types,
  exists status_counts' campaign_types',
    count_contexts contexts status_counts campaign_types
    = inr (status_counts', campaign_types') /\
    total_count status_counts'
    = total_count status_counts + Z.of_nat (length contexts) /\
    total_count campaign_types'
    = total_count campaign_types + Z.of_nat (length contexts).
Proof.
  induction 1 as [|c rest Hc Hrest IH]; intros status_counts campaign_types.
  - exists status_counts, campaign_types. simpl. repeat split; lia.
  - cbn [count_contexts]. fold (campaign_type_of c). rewrite Hc.
    destruct (IH (bump String.eqb status_counts (status c))
                 (bump key_eqb campaign_types (campaign_type_of c)))
      as [sc [ct [Hrun [Hsc Hct]]]].
    exists sc, ct. split; [exact Hrun|].
    unfold bump in Hsc, Hct.
    rewrite total_count_set in Hsc. rewrite total_count_set in Hct.
    cbn [length]. split; lia.
Qed.

(** The statistics, run: what is counted is what [list_contexts] returns
    under its default limit. *)
Lemma get_agent_stats_run (default : Z) (app : App) :
  countable (memory_store app) ->
  exists stats,
    get_agent_stats default app = (inr stats, app) /\
    total_campaigns stats
    = Z.of_nat (Nat.min (Z.to_nat default) (length (contexts (memory_store app)))) /\
    total_count (status_breakdown stats) = total_campaigns stats /\
    total_count (campaign_types stats) = total_campaigns stats.
Proof.
  intros Hcountable.
  unfold get_agent_stats, bind, on_store, list_contexts, lift, ret. simpl.
  destruct (count_contexts_totals
              (firstn (Z.to_nat default) (dict_values (contexts (memory_store app))))
              (Forall_firstn _ _ _ Hcountable) [] [])
    as [sc [ct [Hrun [Hsc Hct]]]].
  rewrite Hrun. rewrite app_eta. eexists. split; [reflexivity|].
  simpl. rewrite length_firstn, length_contexts in *.
  unfold total_count in Hsc, Hct. simpl in Hsc, Hct.
  repeat split; assumption.
Qed.

End Counting.

(** The sample stores. *)
Lemma length_tail_x (n : nat) : String.length (Sample.tail_x n) = n.
Proof. induction n as [|n IH]; simpl; [reflexivity | rewrite IH; reflexivity]. Qed.

Lemma cid_of_injective (i j : nat) : Sample.cid_of i = Sample.cid_of j -> i = j.
Proof.
  unfold Sample.cid_of. intros Heq. inversion Heq as [Htail].
  rewrite <- (length_tail_x i), <- (length_tail_x j), Htail. reflexivity.
Qed.

Lemma length_contexts_upto (n : nat) : length (Sample.contexts_upto n) = n.
Proof. induction n as [|n IH]; simpl; [reflexivity | rewrite IH; reflexivity]. Qed.

Lemma keys_contexts_upto (n : nat) (k : string) :
  In k (dict_keys (Sample.contexts_upto n)) -> exists i, (i < n)%nat /\ k = Sample.cid_of i.
Proof.
  induction n as [|n IH]; simpl; [tauto|].
  intros [Hk | Hin].
  - exists n. split; [lia | symmetry; exact Hk].
  - destruct (IH Hin) as [i [Hi Hk]]. exists i. split; [lia | exact Hk].
Qed.

Lemma contexts_upto_wf (n : nat) :
  store_wf (mk_AgentMemoryStore (Sample.contexts_upto n)).
Proof.
  unfold store_wf. simpl. induction n as [|n IH]; simpl; constructor; [|exact IH].
  intros Hin. destruct (keys_contexts_upto n _ Hin) as [i [Hi Heq]].
  apply cid_of_injective in Heq. lia.
Qed.

Lemma contexts_upto_countable (n : nat) :
  countable (mk_AgentMemoryStore (Sample.contexts_upto n)).
Proof.
  unfold countable. simpl. induction n as [|n IH]; simpl; constructor;
    [reflexivity | exact IH].
Qed.

End ListingFacts.

Section ListingClaims.
Import Schemas ClaudeAgent MainApp Spec.

(** C10, as the code has it.  For every state of the application and
    every limit, the list handler returns, leaves the store as it is, and
    reports as [total_contexts] the number of summaries in its answer, one
    for each context the store returned.  For a limit that is not negative
    this is the minimum of the limit and the size of the store; so, below
    the size of the store, it is not the number of contexts held.  For a
    negative limit it is not that minimum, which is negative. *)
Theorem list_contexts_total_is_number_returned (limit : Z) (app : App) :
  exists response,
    list_contexts_handler limit app = (inr response, app) /\
    total_contexts response = Z.of_nat (length (l_contexts response)) /\
    (exists returned,
       list_contexts limit (memory_store app) = (inr returned, memory_store app) /\
       l_contexts response = map summary_of returned) /\
    (0 <= limit ->
       l_contexts response
       = map summary_of
           (firstn (Z.to_nat limit) (dict_values (contexts (memory_store app)))) /\
       total_contexts response = Z.min limit (store_size (memory_store app))) /\
    (0 <= limit < store_size (memory_store app) ->
       total_contexts response <> store_size (memory_store app)) /\
    (limit < 0 ->
       total_contexts response <> Z.min limit (store_size (memory_store app))).
Proof.
  rewrite list_contexts_handler_run. eexists. split; [reflexivity|]. simpl.
  split; [reflexivity|].
  split; [eexists; split; reflexivity|].
  rewrite length_map, length_firstn, length_contexts. unfold store_size.
  split; [intros Hlimit; split; [reflexivity | lia]|].
  split; intros Hlimit; lia.
Qed.

(** C10, as it is worded, fails for a negative limit.  With nothing stored
    and a limit of -1 the handler returns no summary (there is nothing to
    cut) and reports 0, and the minimum of the limit and the size of the
    store is -1. *)
Lemma negative_limit_total_is_not_the_minimum :
  store_size (memory_store (Sample.app_with 0)) = 0 /\
  Z.min (-1) (store_size (memory_store (Sample.app_with 0))) = -1 /\
  exists response,
    list_contexts_handler (-1) (Sample.app_with 0) = (inr response, Sample.app_with 0) /\
    l_contexts response = [] /\
    total_contexts response = 0.
Proof.
  split; [reflexivity|]. split; [reflexivity|].
  eexists. split; [reflexivity|]. split; reflexivity.
Qed.

Lemma list_contexts_total_is_number_returned_witness :
  exists response,
    list_contexts_handler 2 (Sample.app_with 5) = (inr response, Sample.app_with 5) /\
    total_contexts response = 2 /\
    length (l_contexts response) = 2%nat /\
    store_size (memory_store (Sample.app_with 5)) = 5.
Proof.
  destruct (list_contexts_total_is_number_returned 2 (Sample.app_with 5))
    as [response [Hrun [Htotal [_ [Hmin _]]]]].
  destruct (Hmin ltac:(lia)) as [Hlist Hvalue].
  exists response. split; [exact Hrun|].
  split; [exact Hvalue|].
  split; [rewrite Hlist; reflexivity | reflexivity].
Defined.

Section Stats.
Context `{Runtime}.

(** C9, where it fails.  Whatever the default limit of [list_contexts]
    is, there is a state of the store (well formed, and with campaign
    types that can be counted) for which the statistics answer with a
    total below the number of contexts stored: the statistics are
    taken over the contexts that [list_contexts()] returns, which are
    cut at the default limit.  The two breakdowns sum to the total that
    is reported. *)
Theorem get_agent_stats_misses_contexts (default : Z) :
  exists app stats,
    store_wf (memory_store app) /\ countable (memory_store app) /\
    get_agent_stats default app = (inr stats, app) /\
    total_campaigns stats < store_size (memory_store app) /\
    total_count (status_breakdown stats) = total_campaigns stats /\
    total_count (campaign_types stats) = total_campaigns stats.
Proof.
  set (n := S (Z.to_nat default)).
  destruct (get_agent_stats_run default (Sample.app_with n)
              (contexts_upto_countable n))
    as [stats [Hrun [Htotal [Hsc Hct]]]].
  exists (Sample.app_with n), stats.
  split; [apply contexts_upto_wf|]. split; [apply contexts_upto_countable|].
  split; [exact Hrun|]. split; [|split; assumption].
  rewrite Htotal. unfold store_size. simpl.
  rewrite length_contexts_upto. unfold n. lia.
Qed.

(** Whatever the store holds, as long as every campaign type can be a key,
    the statistics return, leave the store alone, and the counts by status
    and the counts by campaign type each sum to the total reported. *)
Theorem stats_breakdowns_sum_to_total (default : Z) (app : App) :
  countable (memory_store app) ->
  exists stats,
    get_agent_stats default app = (inr stats, app) /\
    total_count (status_breakdown stats) = total_campaigns stats /\
    total_count (campaign_types stats) = total_campaigns stats.
Proof.
  intros Hcountable.
  destruct (get_agent_stats_run default app Hcountable)
    as [stats [Hrun [_ [Hstatus Htypes]]]].
  exists stats. repeat split; assumption.
Qed.

End Stats.

Lemma stats_breakdowns_sum_to_total_witness :
  exists stats,
    @get_agent_stats Sample.runtime 10 (Sample.app_with 3)
    = (inr stats, Sample.app_with 3) /\
    total_campaigns stats = 3 /\
    total_count (status_breakdown stats) = 3 /\
    total_count (campaign_types stats) = 3.
Proof.
  destruct (@stats_breakdowns_sum_to_total Sample.runtime 10 (Sample.app_with 3)
              (contexts_upto_countable 3))
    as [stats [Hrun [Hstatus Htypes]]].
  exists stats. rewrite Hstatus, Htypes.
  assert (Htotal : total_campaigns stats = 3)
    by (inversion Hrun; reflexivity).
  repeat split; assumption.
Defined.

(** With a default limit of 10 and 11 contexts stored, the statistics
    count 10. *)
Example get_agent_stats_with_eleven_contexts :
  exists stats,
    @get_agent_stats Sample.runtime 10 (Sample.app_with 11)
    = (inr stats, Sample.app_with 11) /\
    total_campaigns stats = 10 /\
    status_breakdown stats = [("draft", 10)] /\
    store_size (memory_store (Sample.app_with 11)) = 11.
Proof. eexists. split; [reflexivity|]. repeat split. Qed.

End ListingClaims.

(* ================================================================= *)
(** * More about the agent *)

Section MoreAgentFacts.
Import Schemas ClaudeAgent Spec.
Context `{Runtime}.

(** An object that lacks none of the five keys has a value under each. *)
Lemma first_missing_none (d : dict string pyval) :
  first_missing d = None ->
  forall field, In field required_fields ->
    exists v, dict_get String.eqb d field = Some v.
Proof.
  intros Hnone field Hin.
  pose proof (find_none _ _ Hnone field Hin) as Hmem. cbv beta in Hmem.
  unfold dict_mem in Hmem.
  destruct (dict_get String.eqb d field) as [v|]; [eauto | discriminate].
Qed.

Lemma py_getitem_dict (d : dict string pyval) (key : string) (v : pyval) :
  dict_get String.eqb d key = Some v -> py_getitem (PDict d) key = inr v.
Proof. intros Hget. simpl. rewrite Hget. reflexivity. Qed.

(** The run of the parser on an object with the five keys: the clock is
    read once and the constructor decides. *)
Lemma parse_run_of_object (raw : string) (brief : CampaignBrief) (w : World)
    (d : dict string pyval) (ss pt ec ip an : pyval) :
  json_loads (str_strip raw) = inr (PDict d) ->
  dict_get String.eqb d "strategy_summary" = Some ss ->
  dict_get String.eqb d "post_text" = Some pt ->
  dict_get String.eqb d "email_copy" = Some ec ->
  dict_get String.eqb d "image_prompt" = Some ip ->
  dict_get String.eqb d "agent_notes" = Some an ->
  _parse_claude_response raw brief w
  = (AgentResponse_init (campaign_id brief) ss pt ec ip an (clock w (ticks w)), tick w).
Proof.
  intros Hd Hss Hpt Hec Hip Han. unfold _parse_claude_response. rewrite Hd.
  unfold bind, lift, now. rewrite check_required_dict.
  unfold required_fields, dict_mem. simpl find.
  rewrite Hss, Hpt, Hec, Hip, Han. simpl.
  rewrite Hss, Hpt, Hec, Hip, Han. reflexivity.
Qed.

(** A value that is no object is no [EmailCopy]. *)
Lemma validate_EmailCopy_not_object (v : pyval) :
  (forall d, v <> PDict d) -> validate_EmailCopy v = None.
Proof.
  intros Hv. destruct v; try reflexivity. exfalso. exact (Hv d eq_refl).
Qed.

(** Without a valid [email_copy] the constructor raises and names it. *)
Lemma AgentResponse_init_bad_email (cid : string) (ss pt ec ip an : pyval)
    (t : datetime) :
  validate_EmailCopy ec = None ->
  exists fields,
    AgentResponse_init cid ss pt ec ip an t = inl (ValidationError "AgentResponse" fields)
    /\ In "email_copy" fields.
Proof.
  intros Hec. unfold AgentResponse_init. rewrite Hec.
  exists (failed "strategy_summary" (pydantic_str ss)
          ++ failed "post_text" (pydantic_str pt)
          ++ failed "email_copy" (@None EmailCopy)
          ++ failed "image_prompt" (pydantic_str ip)
          ++ failed "agent_notes" (pydantic_str an))%list.
  split.
  - destruct (pydantic_str ss), (pydantic_str pt); reflexivity.
  - apply in_or_app. right. apply in_or_app. right. left. reflexivity.
Qed.

End MoreAgentFacts.

Section MoreAgentClaims.
Import Schemas ClaudeAgent Spec.
Context `{Runtime}.

(** The prompt is built from twelve fields of the brief, its platforms and
    its notes: two briefs that agree on these get the same user message,
    whatever their [airtable_record_id], [assigned_to] and [priority] are,
    and an absent list of platforms (or notes) reads like an empty one. *)
Theorem user_message_ignores_workflow_fields (b b' : CampaignBrief) :
  same_prompt_fields b b' -> _build_user_message b' = _build_user_message b.
Proof.
  unfold same_prompt_fields, shown_platforms, shown_notes, _build_user_message.
  destruct b as [i1 c1 n1 ty1 o1 a1 k1 v1 vs1 bu1 p1 d1 cr1 no1 ? ? ?].
  destruct b' as [i2 c2 n2 ty2 o2 a2 k2 v2 vs2 bu2 p2 d2 cr2 no2 ? ? ?].
  cbn [campaign_id company_name brand_name campaign_type objective target_audience
       key_message brand_voice brand_values budget platforms deadline created_date
       additional_notes].
  intros [-> [-> [-> [-> [-> [-> [-> [-> [-> [-> [-> [-> [Hp Hn]]]]]]]]]]]]].
  destruct p1 as [[|x xs]|], p2 as [[|y ys]|]; try discriminate Hp;
    try (injection Hp as -> ->);
    destruct no1 as [[|z zs]|], no2 as [[|u us]|]; try discriminate Hn;
    try (injection Hn as -> ->); reflexivity.
Qed.

(** When the call of the provider raises, the agent answers with the
    fallback response: its notes quote [str] of the exception, it carries
    the brief's identifier, and the only effect on the world is the one
    reading of the clock that dates it (nothing is logged). *)
Theorem provider_error_becomes_fallback (self : CampaignAgent) (c : Anthropic)
    (brief : CampaignBrief) (e : exn) (w : World) :
  client self = Some c ->
  messages_create c (request_for self brief) = inl e ->
  exists r,
    process_campaign_brief self brief w = (inr r, tick w) /\
    agent_notes r = fallback_note e /\
    r_campaign_id r = campaign_id brief /\
    generated_at r = clock w (ticks w) /\
    structurally_valid r = true.
Proof.
  intros Hclient Hcall.
  destruct (fallback_run brief (str_of_exn e) w)
    as [r [Hrun [Hid [_ [Ht [Hnotes Hvalid]]]]]].
  exists r. split; [|repeat split; assumption].
  unfold process_campaign_brief, try_except. rewrite Hclient.
  unfold bind at 1. unfold _call_claude_api, lift.
  fold (request_for self brief). rewrite Hcall. exact Hrun.
Qed.

(** The successful path.  When the reply decodes to an object that has
    strings under the four text keys and, under [email_copy], an object
    with strings under [subject_line] and [body_text], the agent returns
    exactly these six texts with the brief's identifier, no context
    identifier and the first reading of the clock; other keys of the reply
    are ignored.  The clock is read three times in all (once for the
    response, twice for the log). *)
Theorem well_formed_reply_is_returned (self : CampaignAgent) (c : Anthropic)
    (brief : CampaignBrief) (raw : string) (w : World)
    (d email : dict string pyval) (ss pt sl bt ip an : string) :
  client self = Some c ->
  messages_create c (request_for self brief) = inr raw ->
  json_loads (str_strip raw) = inr (PDict d) ->
  dict_get String.eqb d "strategy_summary" = Some (PStr ss) ->
  dict_get String.eqb d "post_text" = Some (PStr pt) ->
  dict_get String.eqb d "email_copy" = Some (PDict email) ->
  dict_get String.eqb email "subject_line" = Some (PStr sl) ->
  dict_get String.eqb email "body_text" = Some (PStr bt) ->
  dict_get String.eqb d "image_prompt" = Some (PStr ip) ->
  dict_get String.eqb d "agent_notes" = Some (PStr an) ->
  exists w',
    process_campaign_brief self brief w
    = (inr (mk_AgentResponse (campaign_id brief) None ss pt (mk_EmailCopy sl bt) ip an
              (clock w (ticks w)) None), w') /\
    clock w' = clock w /\ ticks w' = S (S (S (ticks w))).
Proof.
  intros Hclient Hcall Hd Hss Hpt Hec Hsl Hbt Hip Han.
  unfold process_campaign_brief, try_except. rewrite Hclient.
  unfold bind at 1. unfold _call_claude_api, lift at 1.
  fold (request_for self brief). rewrite Hcall.
  unfold bind at 1.
  rewrite (parse_run_of_object raw brief w d _ _ _ _ _ Hd Hss Hpt Hec Hip Han).
  unfold AgentResponse_init, validate_EmailCopy.
  rewrite Hsl, Hbt, !pydantic_str_of_str.
  unfold bind. rewrite log_interaction_run. unfold ret.
  eexists. split; [reflexivity|].
  cbn [read_only tick]. destruct (read_only w); split; reflexivity.
Qed.

(** A reply that has all five keys but whose [email_copy] is a scalar (a
    string, a number, a boolean, null) is refused by the constructor after
    the clock was read: the agent answers with the fallback response, dated
    by the second reading of the clock, and its notes are the text of a
    [ValidationError] that names [email_copy]. *)
Theorem malformed_email_copy_becomes_fallback (self : CampaignAgent) (c : Anthropic)
    (brief : CampaignBrief) (raw : string) (w : World)
    (d : dict string pyval) (ec : pyval) :
  client self = Some c ->
  messages_create c (request_for self brief) = inr raw ->
  json_loads (str_strip raw) = inr (PDict d) ->
  first_missing d = None ->
  dict_get String.eqb d "email_copy" = Some ec ->
  scalar ec ->
  exists fields r,
    In "email_copy" fields /\
    process_campaign_brief self brief w = (inr r, tick (tick w)) /\
    agent_notes r = fallback_note (ValidationError "AgentResponse" fields) /\
    generated_at r = clock w (S (ticks w)) /\
    r_campaign_id r = campaign_id brief.
Proof.
  intros Hclient Hcall Hd Hall Hec Hscalar.
  assert (Hnot : forall email, ec <> PDict email)
    by (intros email ->; exact Hscalar).
  destruct (first_missing_none d Hall "strategy_summary") as [ss Hss];
    [simpl; auto|].
  destruct (first_missing_none d Hall "post_text") as [pt Hpt]; [simpl; auto|].
  destruct (first_missing_none d Hall "image_prompt") as [ip Hip]; [simpl; auto|].
  destruct (first_missing_none d Hall "agent_notes") as [an Han]; [simpl; auto 6|].
  destruct (AgentResponse_init_bad_email (campaign_id brief) ss pt ec ip an
              (clock w (ticks w)) (validate_EmailCopy_not_object ec Hnot))
    as [fields [Hinit Hin]].
  destruct (fallback_run brief (str_of_exn (ValidationError "AgentResponse" fields))
              (tick w)) as [r [Hrun [Hid [_ [Ht [Hnotes _]]]]]].
  exists fields, r. split; [exact Hin|].
  split; [|repeat split; assumption].
  unfold process_campaign_brief, try_except. rewrite Hclient.
  unfold bind at 1. unfold _call_claude_api, lift at 1.
  fold (request_for self brief). rewrite Hcall.
  unfold bind at 1.
  rewrite (parse_run_of_object raw brief w d _ _ _ _ _ Hd Hss Hpt Hec Hip Han).
  rewrite Hinit. exact Hrun.
Qed.

End MoreAgentClaims.

(* ================================================================= *)
(** * More about the effects of the agent and of the service *)

Section EffectFacts.
Import Schemas ClaudeAgent MainApp Spec.

Lemma keeps_try_except {S A} (P : S -> Prop) (body : M S A) (handler : exn -> M S A) :
  keeps P body -> (forall e, keeps P (handler e)) -> keeps P (try_except body handler).
Proof.
  intros Hbody Hhandler s Hs. unfold try_except. specialize (Hbody s Hs).
  destruct (body s) as [[e|a] s']; simpl in *; [exact (Hhandler e s' Hbody) | exact Hbody].
Qed.

Lemma keeps_raise {S A} (P : S -> Prop) (e : exn) : keeps P (@raise S A e).
Proof. intros s Hs. exact Hs. Qed.

Lemma keeps_clock_is_now (f : nat -> datetime) : keeps (clock_is f) now.
Proof. intros w Hw. exact Hw. Qed.

Lemma length_dict_set_present {V} (d : dict string V) (k : string) (v v0 : V) :
  dict_get String.eqb d k = Some v0 ->
  length (dict_set String.eqb d k v) = length d.
Proof.
  intros Hget.
  rewrite <- (length_map fst (dict_set String.eqb d k v)), <- (length_map fst d).
  fold (dict_keys (dict_set String.eqb d k v)). fold (dict_keys d).
  rewrite (dict_keys_set_present String.eqb d k v v0 Hget). reflexivity.
Qed.

Lemma length_dict_set_absent {V} (d : dict string V) (k : string) (v : V) :
  dict_get String.eqb d k = None ->
  length (dict_set String.eqb d k v) = S (length d).
Proof.
  intros Hget.
  rewrite <- (length_map fst (dict_set String.eqb d k v)), <- (length_map fst d).
  fold (dict_keys (dict_set String.eqb d k v)). fold (dict_keys d).
  rewrite (dict_keys_set_absent String.eqb d k v Hget), length_app. simpl. lia.
Qed.

(** A property of all values of a dict survives an assignment of a value
    that has it. *)
Lemma Forall_dict_set {V} (Q : V -> Prop) (d : dict string V) (k : string) (v : V) :
  Forall Q (dict_values d) -> Q v -> Forall Q (dict_values (dict_set String.eqb d k v)).
Proof.
  unfold dict_values. intros Hd Hv.
  induction d as [|[k' v'] d IH]; simpl.
  - constructor; [exact Hv | constructor].
  - inversion Hd as [|x l Hx Hl]; subst.
    destruct (String.eqb k' k); simpl; constructor; auto.
Qed.

Section WithRuntime.
Context `{Runtime}.

(** No step of the agent sets the clock. *)
Lemma process_campaign_brief_keeps_clock (f : nat -> datetime)
    (self : CampaignAgent) (brief : CampaignBrief) :
  keeps (clock_is f) (process_campaign_brief self brief).
Proof.
  unfold process_campaign_brief. apply keeps_try_except.
  - destruct (client self) as [c|].
    + apply keeps_bind; [apply keeps_lift | intros response].
      apply keeps_bind.
      * unfold _parse_claude_response.
        destruct (json_loads (str_strip response)) as [e0|v];
          [destruct e0; apply keeps_raise|].
        repeat (apply keeps_bind; [apply keeps_lift | intros ?]).
        apply keeps_bind; [apply keeps_clock_is_now | intros ?]. apply keeps_lift.
      * intros agent_response. apply keeps_bind; [|intros ?; apply keeps_ret].
        intros w Hw. rewrite log_interaction_run. cbn [snd].
        destruct (read_only w); exact Hw.
    + apply keeps_bind; [apply keeps_clock_is_now | intros ?]. apply keeps_lift.
  - intros e. apply keeps_bind; [apply keeps_clock_is_now | intros ?]. apply keeps_lift.
Qed.

(** The handler of a brief, run: the agent answers, the clock is read four
    more times, and the context is assigned under its identifier. *)
Lemma process_campaign_run (brief : CampaignBrief) (app : App) :
  exists r w1 mc,
    process_campaign_brief (agent app) brief (world app) = (inr r, w1) /\
    process_campaign brief app
    = (inr (with_context_id r (context_id_at brief (clock w1 (ticks w1)))),
       mk_App (agent app)
         (mk_AgentMemoryStore
            (dict_set String.eqb (contexts (memory_store app))
               (context_id_at brief (clock w1 (ticks w1))) mc))
         (tick (tick (tick (tick w1))))) /\
    context_id mc = context_id_at brief (clock w1 (ticks w1)) /\
    input_data mc = CampaignBrief_dict brief /\
    status mc = "draft" /\
    created_at mc = clock w1 (S (S (ticks w1))).
Proof.
  destruct (process_campaign_brief_cases (agent app) brief (world app))
    as [r [w1 [Hrun _]]].
  exists r, w1. eexists. split; [exact Hrun|].
  unfold process_campaign, try_except, bind, the_agent, on_world.
  rewrite Hrun.
  cbn -[CampaignBrief_dict AgentResponse_dict Datetime.strftime_Ymd_HMS
        Datetime.isoformat String.append dict_set].
  split; [reflexivity|]. repeat split.
Qed.

End WithRuntime.

End EffectFacts.

Section EffectClaims.
Import Schemas ClaudeAgent MainApp Spec.
Context `{Runtime}.


(** Identifiers of contexts have the resolution of a second.  While the
    clock shows the same time, two briefs with the same [campaign_id] that
    are processed one after the other get the same [context_id]; the second
    context replaces the first in the store, whose size does not grow, and
    a fetch of the identifier returns the context of the second brief. *)
Theorem same_second_contexts_collide (brief1 brief2 : CampaignBrief) (app : App)
    (t : datetime) :
  clock_stands_at t app ->
  campaign_id brief2 = campaign_id brief1 ->
  exists r1 app1 r2 app2 c2,
    process_campaign brief1 app = (inr r1, app1) /\
    process_campaign brief2 app1 = (inr r2, app2) /\
    r_context_id r1 = Some (context_id_at brief1 t) /\
    r_context_id r2 = Some (context_id_at brief1 t) /\
    store_size (memory_store app2) = store_size (memory_store app1) /\
    get_context_handler (context_id_at brief1 t) app2 = (inr c2, app2) /\
    input_data c2 = CampaignBrief_dict brief2.
Proof.
  intros Hclock Hid.
  destruct (process_campaign_run brief1 app)
    as [r1 [w1 [mc1 [Hagent1 [Hrun1 [Hcid1 _]]]]]].
  assert (Hw1 : clock w1 = clock (world app)).
  { pose proof (process_campaign_brief_keeps_clock (clock (world app)) (agent app)
                  brief1 (world app) eq_refl) as Hk.
    rewrite Hagent1 in Hk. exact Hk. }
  set (app1 := mk_App (agent app)
         (mk_AgentMemoryStore
            (dict_set String.eqb (contexts (memory_store app))
               (context_id_at brief1 (clock w1 (ticks w1))) mc1))
         (tick (tick (tick (tick w1))))) in *.
  destruct (process_campaign_run brief2 app1)
    as [r2 [w2 [mc2 [Hagent2 [Hrun2 [Hcid2 [Hinput2 _]]]]]]].
  assert (Hw2 : clock w2 = clock (world app)).
  { pose proof (process_campaign_brief_keeps_clock (clock (world app)) (agent app1)
                  brief2 (world app1) Hw1) as Hk.
    rewrite Hagent2 in Hk. exact Hk. }
  assert (Ht1 : clock w1 (ticks w1) = t) by (rewrite Hw1; apply Hclock).
  assert (Ht2 : clock w2 (ticks w2) = t) by (rewrite Hw2; apply Hclock).
  rewrite Ht2 in Hrun2, Hcid2.
  assert (Hsame : context_id_at brief2 t = context_id_at brief1 t)
    by (unfold context_id_at; rewrite Hid; reflexivity).
  rewrite Hsame in Hrun2, Hcid2.
  subst app1. rewrite Ht1 in *.
  do 4 eexists. exists mc2.
  split; [exact Hrun1|]. split; [exact Hrun2|].
  split; [reflexivity|]. split; [reflexivity|].
  cbn [memory_store contexts]. unfold store_size. cbn [contexts].
  split.
  - rewrite (length_dict_set_present _ _ mc2 mc1); [reflexivity|].
    apply (dict_get_set_same String.eqb String.eqb_eq).
  - unfold get_context_handler, bind, on_store, get_context.
    cbn [memory_store contexts agent world].
    rewrite (dict_get_set_same String.eqb String.eqb_eq).
    split; [reflexivity | exact Hinput2].
Qed.

(** The handler of a brief keeps the store a store of brief dumps, and
    such a store can be summarised and counted: every context in it has a
    string as campaign type, which the statistics can use as a key, and
    its summary shows the identifier, the company and the type of its
    brief (never [None]). *)
Theorem process_campaign_keeps_brief_contexts (brief : CampaignBrief) (app : App) :
  from_briefs (memory_store app) ->
  exists r app',
    process_campaign brief app = (inr r, app') /\
    from_briefs (memory_store app') /\
    countable (memory_store app') /\
    Forall (fun c => exists b,
              s_campaign_info (summary_of c)
              = mk_CampaignInfo (PStr (campaign_id b)) (PStr (company_name b))
                  (PStr (campaign_type b)))
      (dict_values (contexts (memory_store app'))).
Proof.
  intros Hstore.
  destruct (process_campaign_run brief app)
    as [r [w1 [mc [_ [Hrun [_ [Hinput _]]]]]]].
  do 2 eexists. split; [exact Hrun|]. cbn [memory_store contexts].
  assert (Hall : from_briefs
            (mk_AgentMemoryStore
               (dict_set String.eqb (contexts (memory_store app))
                  (context_id_at brief (clock w1 (ticks w1))) mc))).
  { unfold from_briefs. cbn [contexts]. apply Forall_dict_set; [exact Hstore|].
    exists brief. exact Hinput. }
  split; [exact Hall|]. unfold from_briefs, countable in *. cbn [contexts] in *.
  split; (eapply Forall_impl; [|exact Hall]); intros c [b Hb].
  - unfold campaign_type_of. rewrite Hb. reflexivity.
  - exists b. unfold summary_of. rewrite Hb. reflexivity.
Qed.

End EffectClaims.

(* ================================================================= *)
(** * More about the schemas and the construction of the agent *)

Section SchemaClaims.
Import Schemas ClaudeAgent MainApp Spec.

(** [store_context] has the semantics of an assignment to a dict.  It
    always answers [True] and leaves every other identifier as it was.  For
    an identifier that is stored already it replaces the context where it
    stands: the identifiers, their order and the size of the store are
    unchanged.  A new identifier goes last and the size grows by one.  In
    both cases no identifier is stored twice afterwards if none was. *)
Theorem store_context_overwrites_or_appends (cid : string) (context : MemoryContext)
    (self : AgentMemoryStore) :
  exists self',
    store_context cid context self = (inr true, self') /\
    (forall other, other <> cid ->
       get_context other self' = (inr (dict_get String.eqb (contexts self) other), self')) /\
    (forall old, dict_get String.eqb (contexts self) cid = Some old ->
       dict_keys (contexts self') = dict_keys (contexts self) /\
       store_size self' = store_size self) /\
    (dict_get String.eqb (contexts self) cid = None ->
       dict_keys (contexts self') = (dict_keys (contexts self) ++ [cid])%list /\
       store_size self' = store_size self + 1) /\
    (store_wf self -> store_wf self').
Proof.
  eexists. split; [reflexivity|]. unfold get_context, store_size, store_wf.
  cbn [contexts]. split; [|split; [|split]].
  - intros other Hother.
    rewrite (dict_get_set_other String.eqb String.eqb_eq); [reflexivity | exact Hother].
  - intros old Hold. split.
    + exact (dict_keys_set_present String.eqb _ _ _ _ Hold).
    + rewrite (length_dict_set_present _ _ _ _ Hold). reflexivity.
  - intros Hnew. split.
    + exact (dict_keys_set_absent String.eqb _ _ _ Hnew).
    + rewrite (length_dict_set_absent _ _ _ Hnew). lia.
  - apply dict_set_NoDup, String.eqb_eq.
Qed.

(** The allow-list of campaign types is advisory: [validate_campaign_type]
    returns every string as it is, on the list or not, and never raises. *)
Theorem validate_campaign_type_accepts_everything (v : string) :
  validate_campaign_type v = inr v /\
  exists unlisted,
    ~ In unlisted allowed_types /\ validate_campaign_type unlisted = inr unlisted.
Proof.
  split.
  - unfold validate_campaign_type.
    destruct (negb (existsb (String.eqb v) allowed_types)); reflexivity.
  - exists "flash_sale". split; [|reflexivity].
    simpl. intros [Heq|[Heq|[Heq|[Heq|[Heq|[Heq|[Heq|[]]]]]]]]; discriminate.
Qed.

(** [validate_status] accepts exactly its five statuses and returns the
    status unchanged; every status the status handler accepts is one of
    them, so the handler never writes a status the model would refuse,
    while [archived] is a status of the model that the handler has not. *)
Theorem validate_status_accepts_handler_statuses (s : string) :
  (In s allowed_statuses <-> validate_status s = inr s) /\
  (forall v, validate_status s = inr v -> v = s) /\
  (In s valid_statuses -> validate_status s = inr s) /\
  (In "archived" allowed_statuses /\ ~ In "archived" valid_statuses).
Proof.
  assert (Hiff : existsb (String.eqb s) allowed_statuses = true <-> In s allowed_statuses).
  { rewrite existsb_exists. split.
    - intros [x [Hin Heq]]. apply String.eqb_eq in Heq. subst x. exact Hin.
    - intros Hin. exists s. split; [exact Hin | apply String.eqb_refl]. }
  unfold validate_status.
  split; [|split; [|split]].
  - rewrite <- Hiff.
    destruct (existsb (String.eqb s) allowed_statuses); split; intros Hx;
      try reflexivity; discriminate.
  - intros v. destruct (existsb (String.eqb s) allowed_statuses); intros Hv;
      inversion Hv; reflexivity.
  - intros Hin.
    assert (Hall : In s allowed_statuses).
    { simpl in *. destruct Hin as [Hin|[Hin|[Hin|[Hin|[]]]]]; auto. }
    apply Hiff in Hall. rewrite Hall. reflexivity.
  - split; [simpl; auto 6|].
    simpl. intros [Heq|[Heq|[Heq|[Heq|[]]]]]; discriminate.
Qed.

End SchemaClaims.

Section ConstructionClaims.
Import Schemas ClaudeAgent MainApp Spec.
Context `{Runtime}.

(** The agent is in mock mode exactly when the key is absent or empty.
    Then [get_agent_info] reports that the API is not available and every
    brief is answered by the mock strategy, without any call; with any
    other key the client is the one the constructor built.  In both modes
    the system prompt is the fixed one, and it names each of the five keys
    the parser requires and the two keys of the email object. *)
Theorem CampaignAgent_init_modes (api_key : option string)
    (connect : string -> Anthropic) :
  let self := CampaignAgent_init api_key connect in
  (api_available (get_agent_info self) = false <->
     api_key = None \/ api_key = Some EmptyString) /\
  (api_available (get_agent_info self) = false ->
     forall brief w,
       process_campaign_brief self brief w = _generate_mock_response brief w) /\
  (forall key, api_key = Some key -> key <> EmptyString ->
     client self = Some (connect key)) /\
  forallb (fun field => Str.contains field (system_prompt self))
    (required_fields ++ ["subject_line"; "body_text"]) = true.
Proof.
  cbv zeta. split; [|split; [|split]].
  - destruct api_key as [[|c rest]|]; simpl; split; intros Hx; auto;
      try discriminate; destruct Hx as [Hx|Hx]; discriminate.
  - intros Hmock brief w.
    assert (Hclient : client (CampaignAgent_init api_key connect) = None).
    { destruct api_key as [[|c rest]|]; simpl in *; try reflexivity; discriminate. }
    unfold process_campaign_brief, try_except. rewrite Hclient.
    destruct (mock_run brief w) as [r [Hrun _]]. rewrite Hrun. reflexivity.
  - intros key -> Hkey. destruct key as [|c rest]; [contradiction|reflexivity].
  - vm_compute. reflexivity.
Qed.

End ConstructionClaims.

(* ================================================================= *)
(** * Time stamps *)

Section StampFacts.
Import Datetime.

Lemma length_append (a b : string) :
  String.length (a ++ b) = (String.length a + String.length b)%nat.
Proof. induction a as [|x a IH]; simpl; [reflexivity | rewrite IH; reflexivity]. Qed.

Lemma length_zfill (width : nat) (n : Z) : String.length (Str.zfill width n) = width.
Proof.
  revert n. induction width as [|width IH]; intros n; simpl; [reflexivity|].
  rewrite length_append, IH. simpl. lia.
Qed.

(** Two texts of equal length at the head of equal texts are equal, and so
    are the rests. *)
Lemma append_inj_length (a b c d : string) :
  String.length a = String.length c -> a ++ b = c ++ d -> a = c /\ b = d.
Proof.
  revert c. induction a as [|x a IH]; intros [|y c] Hlen Heq; simpl in *;
    try discriminate.
  - split; [reflexivity | exact Heq].
  - inversion Heq as [[Hxy Hrest]]. injection Hlen as Hlen.
    destruct (IH c Hlen Hrest) as [-> ->]. split; reflexivity.
Qed.

Lemma digit_inj (a b : Z) : Str.digit a = Str.digit b -> a mod 10 = b mod 10.
Proof.
  unfold Str.digit. intros Heq.
  pose proof (Z.mod_pos_bound a 10 ltac:(lia)) as Ha.
  pose proof (Z.mod_pos_bound b 10 ltac:(lia)) as Hb.
  apply (f_equal nat_of_ascii) in Heq.
  rewrite !nat_ascii_embedding in Heq by lia. lia.
Qed.

Lemma days_in_month_le_31 (y m : Z) : 28 <= days_in_month y m <= 31.
Proof.
  unfold days_in_month.
  destruct (m =? 2); [destruct (is_leap y); lia|].
  destruct ((m =? 4) || (m =? 6) || (m =? 9) || (m =? 11)); lia.
Qed.

(** A number below [10 ^ width] is read back from its digits. *)
Lemma zfill_inj (width : nat) (a b : Z) :
  0 <= a < 10 ^ Z.of_nat width -> 0 <= b < 10 ^ Z.of_nat width ->
  Str.zfill width a = Str.zfill width b -> a = b.
Proof.
  revert a b. induction width as [|width IH]; intros a b Ha Hb Heq.
  - simpl in Ha, Hb. lia.
  - cbn [Str.zfill] in Heq.
    apply append_inj_length in Heq; [|rewrite !length_zfill; reflexivity].
    destruct Heq as [Hhigh Hlow]. inversion Hlow as [Hdigit].
    apply digit_inj in Hdigit.
    rewrite Nat2Z.inj_succ, Z.pow_succ_r in Ha, Hb by lia.
    assert (Hdiv : a / 10 = b / 10).
    { apply IH; [| |exact Hhigh].
      - split; [apply Z.div_pos; lia | apply Z.div_lt_upper_bound; lia].
      - split; [apply Z.div_pos; lia | apply Z.div_lt_upper_bound; lia]. }
    rewrite (Z.div_mod a 10), (Z.div_mod b 10) by lia. rewrite Hdiv, Hdigit.
    reflexivity.
Qed.

End StampFacts.

Section StampClaims.
Import Schemas ClaudeAgent MainApp Spec Datetime.

(** The stamp [%Y%m%d_%H%M%S] of a valid time with a year of four digits
    tells its year, month, day, hour, minute and second.  So, for one
    campaign, the context identifiers of two such times are equal only if
    the two times lie in the same second: processing in different seconds
    never collides. *)
Theorem context_id_tells_the_second (brief : CampaignBrief) (t t' : datetime) :
  valid t -> valid t' -> 1000 <= year t -> 1000 <= year t' ->
  context_id_at brief t' = context_id_at brief t ->
  same_second t t' /\ strftime_Ymd_HMS t' = strftime_Ymd_HMS t.
Proof.
  intros Hv Hv' _ _ Hid.
  assert (Heq : strftime_Ymd_HMS t' = strftime_Ymd_HMS t).
  { unfold context_id_at in Hid.
    apply (append_inj_length "campaign_" _ "campaign_" _ eq_refl) in Hid.
    destruct Hid as [_ Hid].
    apply (append_inj_length (campaign_id brief) _ (campaign_id brief) _ eq_refl) in Hid.
    destruct Hid as [_ Hid].
    apply (append_inj_length "_" _ "_" _ eq_refl) in Hid. exact (proj2 Hid). }
  split; [|exact Heq].
  destruct Hv as [Hy [Hm [Hd [Hh [Hmi [Hs _]]]]]].
  destruct Hv' as [Hy' [Hm' [Hd' [Hh' [Hmi' [Hs' _]]]]]].
  pose proof (days_in_month_le_31 (year t) (month t)) as Hdim.
  pose proof (days_in_month_le_31 (year t') (month t')) as Hdim'.
  unfold strftime_Ymd_HMS in Heq.
  apply append_inj_length in Heq; [|rewrite !length_zfill; reflexivity].
  destruct Heq as [Hyear Heq].
  apply append_inj_length in Heq; [|rewrite !length_zfill; reflexivity].
  destruct Heq as [Hmonth Heq].
  apply append_inj_length in Heq; [|rewrite !length_zfill; reflexivity].
  destruct Heq as [Hday Heq].
  apply (append_inj_length "_" _ "_" _ eq_refl) in Heq. destruct Heq as [_ Heq].
  apply append_inj_length in Heq; [|rewrite !length_zfill; reflexivity].
  destruct Heq as [Hhour Heq].
  apply append_inj_length in Heq; [|rewrite !length_zfill; reflexivity].
  destruct Heq as [Hminute Hsecond].
  unfold same_second.
  repeat split.
  - apply (zfill_inj 4); [change (10 ^ Z.of_nat 4) with 10000; lia ..| exact Hyear].
  - apply (zfill_inj 2); [change (10 ^ Z.of_nat 2) with 100; lia ..| exact Hmonth].
  - apply (zfill_inj 2); [change (10 ^ Z.of_nat 2) with 100; lia ..| exact Hday].
  - apply (zfill_inj 2); [change (10 ^ Z.of_nat 2) with 100; lia ..| exact Hhour].
  - apply (zfill_inj 2); [change (10 ^ Z.of_nat 2) with 100; lia ..| exact Hminute].
  - apply (zfill_inj 2); [change (10 ^ Z.of_nat 2) with 100; lia ..| exact Hsecond].
Qed.

End StampClaims.

(* ================================================================= *)
(** * More about the mock brief *)

Section MoreMockBriefClaims.
Import Schemas ClaudeAgent MainApp Spec Datetime.
Context `{Runtime}.

(** The mock brief needs its file and the [product_launch] template.
    Without [mock_data.json], with a file that does not decode (whatever
    the exception of the decoder is), or with
    templates that lack the key [product_launch], the handler answers with
    a 500 that quotes the error and changes nothing; the last also when the
    templates do have the campaign type that was asked for, because the
    default is looked up before the request is. *)
Theorem create_mock_brief_needs_file_and_default (request : MockBriefRequest)
    (app : App) :
  (dict_get String.eqb (files (world app)) "mock_data.json" = None ->
     create_mock_brief request app
     = (inl (HTTPException 500
          "Mock brief creation failed: [Errno 2] No such file or directory: 'mock_data.json'"),
        app)) /\
  (forall text e,
     dict_get String.eqb (files (world app)) "mock_data.json" = Some text ->
     json_loads text = inl e ->
     create_mock_brief request app
     = (inl (HTTPException 500 ("Mock brief creation failed: " ++ str_of_exn e)), app)) /\
  (forall text d,
     dict_get String.eqb (files (world app)) "mock_data.json" = Some text ->
     json_loads text = inr (PDict d) ->
     dict_get String.eqb d "product_launch" = None ->
     create_mock_brief request app
     = (inl (HTTPException 500 "Mock brief creation failed: 'product_launch'"), app)).
Proof.
  split; [|split].
  - intros Hfile.
    unfold create_mock_brief, try_except, bind, on_world, read_file.
    rewrite Hfile. unfold raise. rewrite app_eta. reflexivity.
  - intros text e Hfile Hjson.
    unfold create_mock_brief, try_except, bind, on_world, read_file, lift.
    rewrite Hfile, Hjson. unfold raise. rewrite app_eta. reflexivity.
  - intros text d Hfile Hjson Hdefault.
    unfold create_mock_brief, try_except, bind, on_world, read_file, lift.
    rewrite Hfile, Hjson. simpl. rewrite Hdefault.
    unfold raise. rewrite app_eta. reflexivity.
Qed.

(** The mock brief, where it succeeds.  With a clock that stands at a
    valid time [t] (its year of four digits) whose day plus 14 is a day of
    its month, and templates
    that hold a dict for the request (the one of its campaign type, or the
    [product_launch] one when the type is unknown), the handler returns that
    template stamped: [campaign_id] is [mock_] and the stamp of [t],
    [created_date] is [t] and [deadline] is [t] plus 14 calendar days, in
    ISO format; a company name that is given and not empty is written to
    [company_name] and [brand_name]; every other key keeps the value of
    the template.  The store is not touched. *)
Theorem create_mock_brief_stamps_the_template (request : MockBriefRequest)
    (app : App) (t : datetime) (text : string) (d tpl : dict string pyval)
    (default : pyval) :
  clock_stands_at t app ->
  valid t -> 1000 <= year t ->
  day t + 14 <= days_in_month (year t) (month t) ->
  dict_get String.eqb (files (world app)) "mock_data.json" = Some text ->
  json_loads text = inr (PDict d) ->
  dict_get String.eqb d "product_launch" = Some default ->
  dict_get_default String.eqb d (mb_campaign_type request) default = PDict tpl ->
  exists brief app',
    create_mock_brief request app
    = (inr (mk_MockBriefResponse "success" (PDict brief)), app') /\
    memory_store app' = memory_store app /\
    dict_get String.eqb brief "campaign_id"
    = Some (PStr ("mock_" ++ strftime_Ymd_HMS t)) /\
    dict_get String.eqb brief "created_date" = Some (PStr (isoformat t)) /\
    dict_get String.eqb brief "deadline"
    = Some (PStr (isoformat (calendar_add_days 14 t))) /\
    (forall key,
       key <> "campaign_id" -> key <> "created_date" -> key <> "deadline" ->
       dict_get String.eqb brief key
       = dict_get String.eqb (with_company request tpl) key) /\
    (forall name,
       mb_company_name request = Some name -> name <> EmptyString ->
       dict_get String.eqb brief "company_name" = Some (PStr name) /\
       dict_get String.eqb brief "brand_name" = Some (PStr name)).
Proof.
  intros Hclock Hvalid _ Hfit Hfile Hjson Hdefault Htpl.
  pose proof (replace_day_is_calendar_addition t 14 Hvalid Hfit) as Hreplace.
  change (Z.of_nat 14) with 14 in Hreplace.
  exists (dict_set String.eqb
            (dict_set String.eqb
               (dict_set String.eqb (with_company request tpl) "campaign_id"
                  (PStr ("mock_" ++ strftime_Ymd_HMS t)))
               "created_date" (PStr (isoformat t)))
            "deadline" (PStr (isoformat (calendar_add_days 14 t)))).
  eexists. split.
  - unfold create_mock_brief, try_except, bind, on_world, read_file, lift.
    rewrite Hfile, Hjson. cbn [py_get_method py_getitem]. rewrite Hdefault, Htpl.
    unfold with_company.
    destruct (mb_company_name request) as [[|c rest]|];
      cbn [py_setitem ret now world tick clock ticks];
      rewrite !Hclock, Hreplace; reflexivity.
  - cbn [memory_store]. split; [reflexivity|].
    split; [|split; [|split; [|split]]].
    + rewrite !(dict_get_set_other String.eqb String.eqb_eq) by discriminate.
      apply (dict_get_set_same String.eqb String.eqb_eq).
    + rewrite (dict_get_set_other String.eqb String.eqb_eq) by discriminate.
      apply (dict_get_set_same String.eqb String.eqb_eq).
    + apply (dict_get_set_same String.eqb String.eqb_eq).
    + intros key Hk1 Hk2 Hk3.
      rewrite !(dict_get_set_other String.eqb String.eqb_eq) by assumption.
      reflexivity.
    + intros name Hname Hne. destruct name as [|c rest]; [contradiction|].
      unfold with_company. rewrite Hname. split.
      * rewrite !(dict_get_set_other String.eqb String.eqb_eq) by discriminate.
        apply (dict_get_set_same String.eqb String.eqb_eq).
      * rewrite !(dict_get_set_other String.eqb String.eqb_eq) by discriminate.
        apply (dict_get_set_same String.eqb String.eqb_eq).
Qed.

End MoreMockBriefClaims.

(* ================================================================= *)
(** * Examples of the further properties *)

Section MoreExamples.
Import Schemas ClaudeAgent MainApp Spec Datetime.

Lemma user_message_ignores_workflow_fields_witness :
  same_prompt_fields Sample.brief Sample2.brief_reassigned /\
  assigned_to Sample2.brief_reassigned <> assigned_to Sample.brief /\
  @_build_user_message Sample.runtime Sample2.brief_reassigned
  = @_build_user_message Sample.runtime Sample.brief.
Proof.
  assert (Hsame : same_prompt_fields Sample.brief Sample2.brief_reassigned)
    by (unfold same_prompt_fields; repeat split).
  split; [exact Hsame|]. split; [discriminate|].
  exact (@user_message_ignores_workflow_fields Sample.runtime Sample.brief
           Sample2.brief_reassigned Hsame).
Defined.

Lemma provider_error_becomes_fallback_witness :
  exists r,
    @process_campaign_brief Sample2.runtime (Sample.agent_with (Some Sample2.unreachable))
      Sample.brief (Sample.world_at Sample.jan10)
    = (inr r, tick (Sample.world_at Sample.jan10)) /\
    agent_notes r
    = "FALLBACK RESPONSE: Agent error - Connection error.. Manual review required.".
Proof.
  destruct (@provider_error_becomes_fallback Sample2.runtime
              (Sample.agent_with (Some Sample2.unreachable)) Sample2.unreachable
              Sample.brief (ProviderError "Connection error.")
              (Sample.world_at Sample.jan10) eq_refl eq_refl)
    as [r [Hrun [Hnotes _]]].
  exists r. split; [exact Hrun | exact Hnotes].
Defined.

Lemma well_formed_reply_is_returned_witness :
  exists w',
    @process_campaign_brief Sample2.runtime (Sample.agent_with (Some Sample2.helpful))
      Sample.brief (Sample.world_at Sample.jan10)
    = (inr (mk_AgentResponse "CAMP_2024_001" None "Lead with time saved."
              "Ship faster. #DevTools"
              (mk_EmailCopy "Cut your coding time" "Hi Developer,")
              "A clean desk with two monitors" "A/B test the subject line."
              Sample.jan10 None), w') /\
    ticks w' = 3%nat.
Proof.
  destruct (@well_formed_reply_is_returned Sample2.runtime
              (Sample.agent_with (Some Sample2.helpful)) Sample2.helpful
              Sample.brief Sample2.good_reply_json (Sample.world_at Sample.jan10)
              Sample2.good_reply Sample2.good_email
              "Lead with time saved." "Ship faster. #DevTools"
              "Cut your coding time" "Hi Developer,"
              "A clean desk with two monitors" "A/B test the subject line."
              eq_refl eq_refl eq_refl eq_refl eq_refl eq_refl eq_refl eq_refl
              eq_refl eq_refl)
    as [w' [Hrun [_ Hticks]]].
  exists w'. split; [exact Hrun | exact Hticks].
Defined.

Lemma malformed_email_copy_becomes_fallback_witness :
  exists r,
    @process_campaign_brief Sample2.runtime (Sample.agent_with (Some Sample2.sloppy))
      Sample.brief (Sample.world_at Sample.jan10)
    = (inr r, tick (tick (Sample.world_at Sample.jan10))) /\
    Str.occurs_in "email_copy" (agent_notes r).
Proof.
  destruct (@malformed_email_copy_becomes_fallback Sample2.runtime
              (Sample.agent_with (Some Sample2.sloppy)) Sample2.sloppy
              Sample.brief Sample2.bad_email_reply_json (Sample.world_at Sample.jan10)
              Sample2.bad_email_reply (PStr "soon")
              eq_refl eq_refl eq_refl eq_refl eq_refl I)
    as [fields [r [_ [Hrun _]]]].
  exists r. split; [exact Hrun|].
  inversion Hrun as [Hr]. apply contains_iff. reflexivity.
Defined.


(** A campaign identifier that is a surrogate: the record breaks off
    before the line of the identifier. *)
Example surrogate_identifier_leaves_half_a_record :
  exists w',
    _log_interaction (Sample.agent_with None) Sample.brief_with_surrogate
      (mk_AgentResponse Sample.surrogate None "s" "p" (mk_EmailCopy "a" "b") "i" "n"
         Sample.jan10 None)
      (Sample.world_at Sample.jan10) = (inr tt, w') /\
    dict_get String.eqb (files w') "agent_logs_202401.md"
    = Some (Str.nl ++ "## Campaign Processing Log" ++ Str.nl
            ++ "**Timestamp:** 2024-01-10T12:00:00" ++ Str.nl).
Proof. rewrite log_interaction_run. eexists. split; reflexivity. Qed.

Lemma same_second_contexts_collide_witness :
  exists r1 app1 r2 app2,
    @process_campaign Sample.runtime Sample.brief (Sample.app_with 0) = (inr r1, app1) /\
    @process_campaign Sample.runtime Sample2.brief_reassigned app1 = (inr r2, app2) /\
    r_context_id r1 = Some "campaign_CAMP_2024_001_20240110_120000" /\
    r_context_id r2 = Some "campaign_CAMP_2024_001_20240110_120000" /\
    store_size (memory_store app1) = 1 /\ store_size (memory_store app2) = 1.
Proof.
  destruct (@same_second_contexts_collide Sample.runtime Sample.brief
              Sample2.brief_reassigned (Sample.app_with 0) Sample.jan10
              (fun n => eq_refl) eq_refl)
    as [r1 [app1 [r2 [app2 [c2 [Hrun1 [Hrun2 [Hid1 [Hid2 [Hsize _]]]]]]]]]].
  exists r1, app1, r2, app2.
  split; [exact Hrun1|]. split; [exact Hrun2|].
  split; [exact Hid1|]. split; [exact Hid2|].
  assert (Hone : store_size (memory_store app1) = 1)
    by (inversion Hrun1; reflexivity).
  split; [exact Hone | rewrite Hsize; exact Hone].
Defined.

Lemma process_campaign_keeps_brief_contexts_witness :
  exists r app',
    @process_campaign Sample.runtime Sample.brief (Sample.app_with 2) = (inr r, app') /\
    from_briefs (memory_store app') /\ countable (memory_store app').
Proof.
  assert (Hstore : from_briefs (memory_store (Sample.app_with 2)))
    by (repeat constructor; exists Sample.brief; reflexivity).
  destruct (@process_campaign_keeps_brief_contexts Sample.runtime Sample.brief
              (Sample.app_with 2) Hstore)
    as [r [app' [Hrun [Hfrom [Hcount _]]]]].
  exists r, app'. split; [exact Hrun|]. split; assumption.
Defined.

Lemma store_context_overwrites_or_appends_witness :
  exists self',
    store_context "c" (Sample.context "other") (mk_AgentMemoryStore (Sample.contexts_upto 2))
    = (inr true, self') /\
    dict_keys (contexts self') = ["cx"; "c"] /\ store_size self' = 2.
Proof.
  destruct (store_context_overwrites_or_appends "c" (Sample.context "other")
              (mk_AgentMemoryStore (Sample.contexts_upto 2)))
    as [self' [Hrun [_ [Hpresent _]]]].
  destruct (Hpresent (Sample.context "c") eq_refl) as [Hkeys Hsize].
  exists self'. split; [exact Hrun|]. split; [exact Hkeys | exact Hsize].
Defined.

Lemma validate_status_accepts_handler_statuses_witness :
  validate_status "approved" = inr "approved".
Proof.
  destruct (validate_status_accepts_handler_statuses "approved") as [_ [_ [Hhandler _]]].
  apply Hhandler. simpl. auto.
Defined.

Lemma CampaignAgent_init_modes_witness :
  forallb (fun field => Str.contains field _build_system_prompt)
    ["strategy_summary"; "post_text"; "email_copy"; "image_prompt"; "agent_notes";
     "subject_line"; "body_text"] = true /\
  @process_campaign_brief Sample.runtime
    (CampaignAgent_init (Some EmptyString) (fun _ => Sample.chatty)) Sample.brief
    (Sample.world_at Sample.jan10)
  = @_generate_mock_response Sample.runtime Sample.brief (Sample.world_at Sample.jan10).
Proof.
  destruct (@CampaignAgent_init_modes Sample.runtime (Some EmptyString)
              (fun _ => Sample.chatty)) as [_ [Hmock [_ Hprompt]]].
  split; [exact Hprompt|]. apply Hmock. reflexivity.
Defined.

Lemma context_id_tells_the_second_witness :
  same_second Sample.jan10 Sample2.jan10_later /\
  Sample2.jan10_later <> Sample.jan10.
Proof.
  split; [|discriminate].
  apply (context_id_tells_the_second Sample.brief Sample.jan10 Sample2.jan10_later);
    [vm_compute; intuition discriminate | vm_compute; intuition discriminate
    | vm_compute; discriminate | vm_compute; discriminate | reflexivity].
Defined.

Lemma create_mock_brief_needs_file_and_default_witness :
  @create_mock_brief Sample2.runtime Sample.request Sample2.app_without_file
  = (inl (HTTPException 500
       "Mock brief creation failed: [Errno 2] No such file or directory: 'mock_data.json'"),
     Sample2.app_without_file) /\
  @create_mock_brief Sample2.runtime Sample.request Sample2.app_with_templates
  = (inl (HTTPException 500 "Mock brief creation failed: 'product_launch'"),
     Sample2.app_with_templates) /\
  mb_campaign_type Sample.request = "awareness" /\
  dict_mem String.eqb Sample2.templates "awareness" = true.
Proof.
  destruct (@create_mock_brief_needs_file_and_default Sample2.runtime Sample.request
              Sample2.app_without_file) as [Hfile _].
  destruct (@create_mock_brief_needs_file_and_default Sample2.runtime Sample.request
              Sample2.app_with_templates) as [_ [_ Hdefault]].
  split; [exact (Hfile eq_refl)|].
  split; [exact (Hdefault Sample2.templates_json Sample2.templates eq_refl eq_refl eq_refl)|].
  split; reflexivity.
Defined.

Lemma create_mock_brief_stamps_the_template_witness :
  exists brief app',
    @create_mock_brief Sample.runtime Sample.request (Sample.app_with 0)
    = (inr (mk_MockBriefResponse "success" (PDict brief)), app') /\
    dict_get String.eqb brief "campaign_id" = Some (PStr "mock_20240110_120000") /\
    dict_get String.eqb brief "deadline" = Some (PStr "2024-01-24T12:00:00") /\
    dict_get String.eqb brief "company_name" = Some (PStr "Acme") /\
    dict_get String.eqb brief "campaign_type" = Some (PStr "product_launch").
Proof.
  destruct (@create_mock_brief_stamps_the_template Sample.runtime Sample.request
              (Sample.app_with 0) Sample.jan10 Sample.mock_data_json
              [ ("product_launch",
                 PDict [ ("company_name", PStr "TechStart Inc");
                         ("campaign_type", PStr "product_launch") ]) ]
              [ ("company_name", PStr "TechStart Inc");
                ("campaign_type", PStr "product_launch") ]
              (PDict [ ("company_name", PStr "TechStart Inc");
                       ("campaign_type", PStr "product_launch") ])
              (fun n => eq_refl)
              ltac:(vm_compute; intuition discriminate)
              ltac:(vm_compute; discriminate)
              ltac:(vm_compute; discriminate)
              eq_refl eq_refl eq_refl eq_refl)
    as [brief [app' [Hrun [_ [Hid [_ [Hdue [Hkeep Hcompany]]]]]]]].
  exists brief, app'. split; [exact Hrun|]. split; [exact Hid|]. split; [exact Hdue|].
  split.
  - exact (proj1 (Hcompany "Acme" eq_refl ltac:(discriminate))).
  - rewrite Hkeep by discriminate. reflexivity.
Defined.

End MoreExamples.
